(** * rls-vscode: the extension core ([src/extension.ts])

    A shallow embedding of the parts of [extension.ts] that decide how the
    Rust Language Server is started and how its build progress is shown:

    - [getSysroot]        the sysroot probe ([rustup run nightly rustc --print sysroot]);
    - [makeRlsEnv]        the environment handed to the server ([RUST_SRC_PATH]);
    - [makeRlsProcess]    the choice of launch strategy and the log capture;
    - [diagnosticCounter] the begin/end counter that drives the spinner.

    JavaScript objects are kept in a store indexed by locations, so that
    [const env = process.env] is an alias and not a copy.  Everything the
    extension does to the outside (child processes, console, editor window,
    files) is recorded, in order, in a trace of effects; everything it reads
    from the outside is supplied by a [Host]. *)

From Stdlib Require Import ZArith NArith String Ascii List Lia.
From stdpp Require Import base gmap strings list pretty.
Import ListNotations.

Open Scope string_scope.

(* ===================================================================== *)
(** * JavaScript values used by the extension                             *)
(* ===================================================================== *)

(** A property that holds a string, or is [undefined]/[null] ([None]). *)
Definition truthy (v : option string) : bool :=
  match v with
  | None => false
  | Some EmptyString => false
  | Some (String _ _) => true
  end.

(** [v || d] for a string-or-undefined [v]. *)
Definition or_else (v : option string) (d : string) : string :=
  if truthy v then default d v else d.

(** String conversion of a string-or-undefined operand of [+]. *)
Definition to_js_string (v : option string) : string :=
  default "undefined" v.

Definition LF : ascii := "010"%char.
Definition CR : ascii := "013"%char.

(** [s.replace(c, '')] where the pattern [c] is a one-character string:
    only the first occurrence of the pattern is replaced. *)
Fixpoint replace_first (c : ascii) (s : string) : string :=
  match s with
  | EmptyString => EmptyString
  | String a rest =>
      if Ascii.eqb a c then rest else String a (replace_first c rest)
  end.

(** [n > 0] for a number-or-null [n]; [null > 0] is [false]. *)
Definition gt_zero (n : option Z) : bool :=
  match n with
  | Some z => (0 <? z)%Z
  | None => false
  end.

(** Template-literal rendering of a number-or-null. *)
Definition render_status (n : option Z) : string :=
  match n with
  | Some z => pretty z
  | None => "null"
  end.

(* ===================================================================== *)
(** * The progress counter: [diagnosticCounter]                           *)
(* ===================================================================== *)

Module Tracker.

(** The two notifications the client listens to. *)
Inductive Notification : Type :=
| BeginBuild        (* rustDocument/beginBuild *)
| DiagnosticsEnd.   (* rustDocument/diagnosticsEnd *)

(** Calls made to the spinner module. *)
Inductive SpinnerCall : Type :=
| startSpinner (label : string)
| stopSpinner (label : string).

(** [runningDiagnostics] is a JavaScript number that only ever changes by
    one; it is exact on the integers of magnitude below 2^53 and modelled
    as an integer. *)
Record State : Type := mkState {
  runningDiagnostics : Z;
  calls : list SpinnerCall   (* spinner calls so far, oldest first *)
}.

Definition fresh : State := mkState 0 [].

(** Handler of [rustDocument/beginBuild]. *)
Definition on_beginBuild (st : State) : State :=
  let n := (runningDiagnostics st + 1)%Z in
  mkState n (calls st ++ [startSpinner "RLS: working"]).

(** Handler of [rustDocument/diagnosticsEnd]. *)
Definition on_diagnosticsEnd (st : State) : State :=
  let n := (runningDiagnostics st - 1)%Z in
  if (n <=? 0)%Z
  then mkState n (calls st ++ [stopSpinner "RLS: done"])
  else mkState n (calls st).

Definition handle (st : State) (n : Notification) : State :=
  match n with
  | BeginBuild => on_beginBuild st
  | DiagnosticsEnd => on_diagnosticsEnd st
  end.

(** Notifications are handled one at a time, in the order received. *)
Definition run (st : State) (ns : list Notification) : State :=
  fold_left handle ns st.

(** The spinner calls one handler invocation adds. *)
Definition emitted (st : State) (n : Notification) : list SpinnerCall :=
  drop (length (calls st)) (calls (handle st n)).

Inductive Indicator : Type := Idle | Busy.

(** Modelled from the spec: the spinner module ([./spinner]) is not part of
    the sources at hand.  [startSpinner] is the "enter busy" indication and
    [stopSpinner] the "enter idle" indication; what the editor shows is
    decided by the last call made, and it shows idle before any call. *)
Definition shown_by (c : SpinnerCall) : Indicator :=
  match c with
  | startSpinner _ => Busy
  | stopSpinner _ => Idle
  end.

Definition indicator (st : State) : Indicator :=
  fold_left (fun _ c => shown_by c) (calls st) Idle.

Definition is_begin (n : Notification) : bool :=
  match n with BeginBuild => true | DiagnosticsEnd => false end.

Definition is_end (n : Notification) : bool :=
  match n with BeginBuild => false | DiagnosticsEnd => true end.

Definition begins (ns : list Notification) : nat :=
  length (List.filter is_begin ns).

Definition ends (ns : list Notification) : nat :=
  length (List.filter is_end ns).

End Tracker.

(* ===================================================================== *)
(** * The store, the effects and the host                                 *)
(* ===================================================================== *)

(** An environment object: variable name to value. *)
Abbreviation Env := (gmap string string).

(** Objects live in a store; a variable holds a location. *)
Definition loc : Type := positive.

(** The location of the [process.env] object. *)
Definition process_env : loc := 1%positive.

(** What [child_process.spawnSync] reports. *)
Record SpawnSyncResult : Type := mkSpawnSyncResult {
  error : option string;    (* the error, rendered as text, when spawning failed *)
  status : option Z;        (* exit status, [null] when killed by a signal *)
  stdout : option string    (* the output buffer, decoded as text *)
}.

(** Effects on the outside world, as the extension performs them.  A child
    process receives the contents its environment object has at the moment
    of the call; both the object and those contents are recorded. *)
Inductive Effect : Type :=
| SpawnSync (command : string) (args : list string) (env : loc) (contents : Env)
| Spawn (command : string) (args : list string) (cwd : option string)
        (env : loc) (contents : Env)
| RunRlsViaRustup (env : loc) (contents : Env)
| ConsoleInfo (args : list string)
| ConsoleWarn (args : list string)
| ConsoleError (args : list string)
| ShowWarningMessage (text : string)
| SetStatusBarMessage (text : string)
| CreateWriteStream (path : string) (flags : string)
| OutputAppend (text : string)
| OutputShow (preserveFocus : bool)
| Throw (err : string).

Record World : Type := mkWorld {
  heap : gmap loc Env;
  trace : list Effect   (* oldest first *)
}.

(** The world at activation: [process.env] holds the ambient environment. *)
Definition initial (ambient : Env) : World :=
  mkWorld {[ process_env := ambient ]} [].

Definition contents_of (w : World) (o : loc) : Env :=
  default ∅ (heap w !! o).

(** What the extension reads from outside. *)
Record Host : Type := mkHost {
  (* result of the n-th synchronous spawn (counting from 0) *)
  spawnSync_result : nat -> string -> list string -> Env -> SpawnSyncResult;
  (* whether the promise of [runRlsViaRustup] resolves to a child process *)
  runRlsViaRustup_resolves : Env -> bool;
  Date_now : N;
  workspace_rootPath : option string
}.

(** The settings read through [CONFIGURATION]. *)
Record RLSConfiguration : Type := mkConfig {
  rlsPath : option string;
  rlsRoot : option string;
  logToFile : bool;
  showStderrInOutputChannel : bool;
  updateOnStartup : bool;
  revealOutputChannelOn : Z
}.

(** [RevealOutputChannelOn.Info] of vscode-languageclient. *)
Definition RevealOutputChannelOn_Info : Z := 1.

(** ** Computations that read and change the world *)

Definition M (A : Type) : Type := World -> A * World.

Definition ret {A : Type} (a : A) : M A := fun w => (a, w).

Definition bind {A B : Type} (m : M A) (k : A -> M B) : M B :=
  fun w => let (a, w') := m w in k a w'.

Notation "x <- m ;; k" := (bind m (fun x => k))
  (at level 100, m at next level, right associativity).
Notation "m ;;; k" := (bind m (fun _ => k))
  (at level 100, right associativity).

Definition emit (e : Effect) : M unit :=
  fun w => (tt, mkWorld (heap w) (trace w ++ [e])).

(** [o.k] *)
Definition get_prop (o : loc) (k : string) : M (option string) :=
  fun w => (contents_of w o !! k, w).

(** [o.k = v] *)
Definition set_prop (o : loc) (k v : string) : M unit :=
  fun w => (tt, mkWorld (<[ o := <[ k := v ]> (contents_of w o) ]> (heap w)) (trace w)).

Definition is_spawnSync (e : Effect) : bool :=
  match e with SpawnSync _ _ _ _ => true | _ => false end.

(** The probe invocations made so far. *)
Definition probes (w : World) : list Effect :=
  List.filter is_spawnSync (trace w).

Definition is_launch (e : Effect) : bool :=
  match e with
  | Spawn _ _ _ _ _ => true
  | RunRlsViaRustup _ _ => true
  | _ => false
  end.

(** The launch attempts made so far, whatever the strategy. *)
Definition launches (w : World) : list Effect :=
  List.filter is_launch (trace w).

Definition is_createWriteStream (e : Effect) : bool :=
  match e with CreateWriteStream _ _ => true | _ => false end.

Definition files_opened (w : World) : list Effect :=
  List.filter is_createWriteStream (trace w).

(* ===================================================================== *)
(** * The sysroot probe and the environment                               *)
(* ===================================================================== *)

(** [string | Error] *)
Inductive StringOrError : Type :=
| Str (s : string)
| Error (message : string).

Definition probe_command : string := "rustup".
Definition probe_args : list string :=
  ["run"; "nightly"; "rustc"; "--print"; "sysroot"].

(** The fixed argument list of the launch from a project root. *)
Definition root_command : string := "rustup".
Definition root_args : list string :=
  ["run"; "nighty"; "cargo"; "run"; "--release"].

Definition SRC_SUFFIX : string := "/lib/rustlib/src/rust/src".

Section Extension.

Variable host : Host.

(** [child_process.spawnSync(command, args, {env})] *)
Definition spawnSync (command : string) (args : list string) (env : loc)
  : M SpawnSyncResult :=
  fun w =>
    let r := spawnSync_result host (length (probes w)) command args (contents_of w env) in
    (r, mkWorld (heap w) (trace w ++ [SpawnSync command args env (contents_of w env)])).

(** The part of [getSysroot] after the command has run.  No encoding is
    asked for, so the output, when there is one, is a Buffer: it is truthy
    even when empty and it has a [toString] method. *)
Definition sysroot_of (rustcSysroot : SpawnSyncResult) : StringOrError :=
  match error rustcSysroot with
  | Some e => Error ("Error running `rustc`: " +:+ e)
  | None =>
      if gt_zero (status rustcSysroot)
      then Error ("Error getting sysroot from `rustc`: exited with `"
                  +:+ render_status (status rustcSysroot) +:+ "`")
      else
        match stdout rustcSysroot with
        | None => Error "Couldn't get sysroot from `rustc`: Got no ouput"
        | Some out => Str (replace_first CR (replace_first LF out))
        end
  end.

Definition getSysroot (env : loc) : M StringOrError :=
  rustcSysroot <- spawnSync probe_command probe_args env ;;
  ret (sysroot_of rustcSysroot).

Definition WARN_NO_SYSROOT : string :=
  "RLS could not set RUST_SRC_PATH for Racer because it could not read the Rust sysroot.".

Definition makeRlsEnv : M loc :=
  let env := process_env in
  src <- get_prop process_env "RUST_SRC_PATH" ;;
  if truthy src then ret env
  else
    result <- getSysroot env ;;
    result <-
      match result with
      | Error message =>
          emit (ConsoleInfo [message]) ;;;
          emit (ConsoleInfo ["Let's retry with extended $PATH"]) ;;;
          home <- get_prop env "HOME" ;;
          path <- get_prop env "PATH" ;;
          set_prop env "PATH" (or_else home "~" +:+ "/.cargo/bin:" +:+ or_else path "") ;;;
          result <- getSysroot env ;;
          match result with
          | Error message2 =>
              emit (ConsoleWarn ["Error reading sysroot (second try)"; message2]) ;;;
              emit (ShowWarningMessage WARN_NO_SYSROOT)
          | Str _ => ret tt
          end ;;;
          ret result
      | Str _ => ret result
      end ;;
    match result with
    | Str sysroot =>
        emit (ConsoleInfo ["Setting sysroot to"; sysroot]) ;;;
        set_prop env "RUST_SRC_PATH" (sysroot +:+ SRC_SUFFIX)
    | Error _ => ret tt
    end ;;;
    ret env.

(* ===================================================================== *)
(** * Launching the server: [makeRlsProcess]                              *)
(* ===================================================================== *)

(** A child process handle: the position of its launch among the launches. *)
Inductive ChildProcess : Type := child_no (n : nat).

(** [child_process.spawn(command, args, {cwd, env})] *)
Definition spawn (command : string) (args : list string) (cwd : option string)
  (env : loc) : M ChildProcess :=
  fun w =>
    (child_no (length (launches w)),
     mkWorld (heap w) (trace w ++ [Spawn command args cwd env (contents_of w env)])).

(** [runRlsViaRustup(env)] of [./rustup]: a promise of a child process,
    [None] when it is rejected. *)
Definition runRlsViaRustup (env : loc) : M (option ChildProcess) :=
  fun w =>
    let r := if runRlsViaRustup_resolves host (contents_of w env)
             then Some (child_no (length (launches w))) else None in
    (r, mkWorld (heap w) (trace w ++ [RunRlsViaRustup env (contents_of w env)])).

(** The write stream of the log file.  [written] lists the chunks handed to
    [logStream.write], oldest first: the stream was opened on a file of its
    own, so they are what the file holds. *)
Record LogStream : Type := mkLogStream {
  log_path : string;
  log_flags : string;
  data_listeners : nat;   (* listeners this stream has put on the child's stderr *)
  ended : bool;
  written : list string
}.

(** A launched server with the observers attached to it. *)
Record Session : Type := mkSession {
  childProcess : ChildProcess;
  logStream : option LogStream;   (* present when the log is captured *)
  mirror : bool                   (* stderr is shown in the output channel *)
}.

Definition logPath : string :=
  to_js_string (workspace_rootPath host) +:+ "/rls"
    +:+ pretty (Date_now host) +:+ ".log".

Definition LOG_FLAGS : string := "w+".

(** The callback given to [childProcessPromise.then]. *)
Definition attach (cfg : RLSConfiguration) (child : ChildProcess) : M Session :=
  log <-
    (if logToFile cfg
     then emit (CreateWriteStream logPath LOG_FLAGS) ;;;
          ret (Some (mkLogStream logPath LOG_FLAGS 0 false []))
     else ret None) ;;
  ret (mkSession child log (showStderrInOutputChannel cfg)).

Definition makeRlsProcess (cfg : RLSConfiguration) : M (option Session) :=
  let rls_path := rlsPath cfg in
  let rls_root := rlsRoot cfg in
  env <- makeRlsEnv ;;
  childProcessPromise <-
    (if truthy rls_path
     then c <- spawn (default "" rls_path) [] None env ;; ret (Some c)
     else if truthy rls_root
     then c <- spawn root_command root_args rls_root env ;; ret (Some c)
     else runRlsViaRustup env) ;;
  match childProcessPromise with
  | Some child => s <- attach cfg child ;; ret (Some s)
  | None => emit (SetStatusBarMessage "RLS could not be started") ;;; ret None
  end.

(** ** What the observers do when events arrive *)

Inductive Event : Type :=
| ChildError (code : option string) (message : string)  (* 'error' on the child *)
| LogOpen                                               (* 'open' on the log stream *)
| LogError (err : string)                               (* 'error' on the log stream *)
| StderrData (chunk : string).                          (* 'data' on the child's stderr *)

(** [logStream.write(chunk.toString())], once per listener.  Chunks are
    modelled by their text.  A write to an ended stream stores nothing (the
    stream then raises an error, which arrives as a [LogError]). *)
Definition log_write (chunk : string) (ls : LogStream) : LogStream :=
  if ended ls then ls
  else mkLogStream (log_path ls) (log_flags ls) (data_listeners ls) (ended ls)
                   (written ls ++ replicate (data_listeners ls) chunk).

(** [lcOutputChannel] is [true] when the output channel exists. *)
Definition deliver (cfg : RLSConfiguration) (lcOutputChannel : bool)
  (s : Session) (e : Event) : M Session :=
  match e with
  | ChildError code message =>
      (if bool_decide (code = Some "ENOENT")
       then emit (ConsoleError ["Could not spawn RLS process: "; message]) ;;;
            emit (ShowWarningMessage "Could not start RLS")
       else emit (Throw message)) ;;;
      ret s
  | LogOpen =>
      match logStream s with
      | Some ls =>
          ret (mkSession (childProcess s)
                 (Some (mkLogStream (log_path ls) (log_flags ls)
                          (S (data_listeners ls)) (ended ls) (written ls)))
                 (mirror s))
      | None => ret s
      end
  | LogError err =>
      match logStream s with
      | Some ls =>
          emit (ConsoleError ["Couldn't write to " +:+ log_path ls +:+ " (" +:+ err +:+ ")"]) ;;;
          ret (mkSession (childProcess s)
                 (Some (mkLogStream (log_path ls) (log_flags ls)
                          (data_listeners ls) true (written ls)))
                 (mirror s))
      | None => ret s
      end
  | StderrData chunk =>
      (if mirror s && lcOutputChannel
       then emit (OutputAppend chunk) ;;;
            (if (revealOutputChannelOn cfg <=? RevealOutputChannelOn_Info)%Z
             then emit (OutputShow true) else ret tt)
       else ret tt) ;;;
      ret (mkSession (childProcess s) (log_write chunk <$> logStream s) (mirror s))
  end.

Fixpoint deliver_all (cfg : RLSConfiguration) (lcOutputChannel : bool)
  (s : Session) (es : list Event) : M Session :=
  match es with
  | [] => ret s
  | e :: es' =>
      s' <- deliver cfg lcOutputChannel s e ;;
      deliver_all cfg lcOutputChannel s' es'
  end.

(** What the log file holds. *)
Definition log_contents (s : Session) : string :=
  match logStream s with
  | Some ls => fold_right String.append "" (written ls)
  | None => ""
  end.

End Extension.

(** The launch that [makeRlsProcess] attempts in a world [w], given the
    environment object [env]. *)
Definition chosen_launch (cfg : RLSConfiguration) (env : loc) (w : World) : Effect :=
  if truthy (rlsPath cfg)
  then Spawn (default "" (rlsPath cfg)) [] None env (contents_of w env)
  else if truthy (rlsRoot cfg)
  then Spawn "rustup" ["run"; "nighty"; "cargo"; "run"; "--release"] (rlsRoot cfg)
         env (contents_of w env)
  else RunRlsViaRustup env (contents_of w env).

(** The environment object a launch was given. *)
Definition env_of_launch (e : Effect) : option loc :=
  match e with
  | Spawn _ _ _ env _ => Some env
  | RunRlsViaRustup env _ => Some env
  | _ => None
  end.

(** The flags with which Node opens a file for appending. *)
Definition append_flags : list string :=
  ["a"; "ax"; "a+"; "ax+"; "as"; "as+"].

Definition is_append_mode (flags : string) : bool :=
  bool_decide (flags ∈ append_flags).

(* ===================================================================== *)
(** * Sample inputs                                                       *)
(* ===================================================================== *)

Definition ok (out : string) : SpawnSyncResult :=
  mkSpawnSyncResult None (Some 0%Z) (Some out).

Definition exited (code : Z) (out : string) : SpawnSyncResult :=
  mkSpawnSyncResult None (Some code) (Some out).

Definition CRLF : string := String CR (String LF EmptyString).

(** A host on which the first probe exits with 1 and no output and later
    probes answer [/opt/toolchain] followed by CR LF. *)
Definition retry_host : Host :=
  mkHost (fun n _ _ _ => match n with
                         | O => exited 1 ""
                         | S _ => ok ("/opt/toolchain" +:+ CRLF)
                         end)
         (fun _ => true) 1500000000000%N (Some "/home/me/project").

(** A host on which every probe answers [out] with status [code]. *)
Definition const_host (code : Z) (out : string) : Host :=
  mkHost (fun _ _ _ _ => exited code out) (fun _ => true)
         1500000000000%N (Some "/home/me/project").

Definition config (path root : option string) (log : bool) : RLSConfiguration :=
  mkConfig path root log false false 4.

Definition PATH_only : Env := {[ "PATH" := "/usr/bin" ]}.

Definition empty_RUST_SRC_PATH : Env := {[ "RUST_SRC_PATH" := "" ]}.

(** Whether the character [c] occurs in [s]. *)
Fixpoint occurs (c : ascii) (s : string) : bool :=
  match s with
  | EmptyString => false
  | String a rest => Ascii.eqb a c || occurs c rest
  end.


(** The environment with which the probe is retried: [PATH] widened by the
    per-user toolchain directory. *)
Definition extended (e : Env) : Env :=
  <[ "PATH" := or_else (e !! "HOME") "~" +:+ "/.cargo/bin:" +:+ or_else (e !! "PATH") "" ]> e.

(** The command and arguments of a probe invocation. *)
Definition probe_argv (e : Effect) : option (string * list string) :=
  match e with
  | SpawnSync command args _ _ => Some (command, args)
  | _ => None
  end.

(* ===================================================================== *)
(** * Further observations on runs                                        *)
(* ===================================================================== *)

(** No end arrives before its begin, [depth] builds being under way. *)
Fixpoint well_nested (depth : nat) (ns : list Tracker.Notification) : bool :=
  match ns with
  | [] => true
  | Tracker.BeginBuild :: rest => well_nested (S depth) rest
  | Tracker.DiagnosticsEnd :: rest =>
      match depth with
      | O => false
      | S d => well_nested d rest
      end
  end.

Definition is_warning (e : Effect) : bool :=
  match e with ShowWarningMessage _ => true | _ => false end.

(** The warnings shown in the editor window so far. *)
Definition warnings (w : World) : list Effect :=
  List.filter is_warning (trace w).

(** Command, arguments and working directory of a process the extension
    spawns itself; [None] for a launch left to [runRlsViaRustup]. *)
Definition launch_argv (e : Effect) : option (string * list string * option string) :=
  match e with
  | Spawn command args cwd _ _ => Some (command, args, cwd)
  | _ => None
  end.

(** The environment variables a launched process starts with. *)
Definition contents_of_launch (e : Effect) : option Env :=
  match e with
  | Spawn _ _ _ _ contents => Some contents
  | RunRlsViaRustup _ contents => Some contents
  | _ => None
  end.

(** The directory put in front of [PATH] for the retry. *)
Definition cargo_bin (e : Env) : string :=
  or_else (e !! "HOME") "~" +:+ "/.cargo/bin:".

(** The world after [k] calls of [makeRlsEnv] in a row, one for each start
    of the server in the same extension host. *)
Definition after_calls (host : Host) (k : nat) (w : World) : World :=
  Nat.iter k (fun w' => snd (makeRlsEnv host w')) w.

(** A session as [attach] makes it for a configuration. *)
Definition session_for (host : Host) (cfg : RLSConfiguration) (child : ChildProcess)
  : Session :=
  mkSession child
    (if logToFile cfg
     then Some (mkLogStream (logPath host) "w+" 0 false [])
     else None)
    (showStderrInOutputChannel cfg).

Definition is_throw (e : Effect) : bool :=
  match e with Throw _ => true | _ => false end.

(** The errors raised again out of the error observer so far. *)
Definition thrown (w : World) : list Effect :=
  List.filter is_throw (trace w).

(** Whether an event is a child error other than "executable not found". *)
Definition is_other_child_error (e : Event) : bool :=
  match e with
  | ChildError code _ => negb (bool_decide (code = Some "ENOENT"))
  | _ => false
  end.

Definition is_not_found (e : Event) : bool :=
  match e with
  | ChildError code _ => bool_decide (code = Some "ENOENT")
  | _ => false
  end.

(** A host on which every probe fails to start. *)
Definition no_rustup_host : Host :=
  mkHost (fun _ _ _ _ => mkSpawnSyncResult (Some "Error: spawnSync rustup ENOENT") None None)
         (fun _ => false) 1500000000000%N None.

Definition HOME_PATH : Env := {[ "HOME" := "/home/me"; "PATH" := "/usr/bin" ]}.

(** An environment with no variable at all. *)
Definition bare_env : Env := ∅.

(* ===================================================================== *)
(** * Properties of the progress counter                                  *)
(* ===================================================================== *)

Section TrackerFacts.

Import Tracker.

Lemma run_snoc (st : State) (ns : list Notification) (n : Notification) :
  run st (ns ++ [n]) = handle (run st ns) n.
Proof. unfold run. now rewrite fold_left_app. Qed.

Lemma begins_snoc (ns : list Notification) (n : Notification) :
  begins (ns ++ [n]) = (begins ns + (if is_begin n then 1 else 0))%nat.
Proof.
  unfold begins. rewrite List.filter_app, length_app. simpl.
  now destruct (is_begin n).
Qed.

Lemma ends_snoc (ns : list Notification) (n : Notification) :
  ends (ns ++ [n]) = (ends ns + (if is_end n then 1 else 0))%nat.
Proof.
  unfold ends. rewrite List.filter_app, length_app. simpl.
  now destruct (is_end n).
Qed.

(** The counter is the start value plus the begins minus the ends, in
    whatever order they arrive. *)
Lemma counter_after_run (st : State) (ns : list Notification) :
  runningDiagnostics (run st ns)
  = (runningDiagnostics st + Z.of_nat (begins ns) - Z.of_nat (ends ns))%Z.
Proof.
  induction ns as [| n ns IH] using rev_ind.
  - unfold begins, ends. simpl. lia.
  - rewrite run_snoc, begins_snoc, ends_snoc.
    destruct n; simpl; unfold on_beginBuild, on_diagnosticsEnd; simpl.
    + rewrite IH. lia.
    + destruct (_ <=? 0)%Z; simpl; rewrite IH; lia.
Qed.

Lemma indicator_snoc (n : Z) (cs : list SpinnerCall) (c : SpinnerCall) :
  indicator (mkState n (cs ++ [c])) = shown_by c.
Proof. unfold indicator. simpl. now rewrite fold_left_app. Qed.

(** C1, as stated, fails: an end that arrives before its begin leaves the
    counter at 0 but the spinner started.  One end, then one begin: the end
    takes the counter to -1 and stops the spinner, the begin takes it back
    to 0 and starts the spinner. *)
Lemma C1_counterexample :
  begins [DiagnosticsEnd; BeginBuild] = 1%nat /\
  ends [DiagnosticsEnd; BeginBuild] = 1%nat /\
  run fresh [DiagnosticsEnd; BeginBuild]
  = mkState 0 [stopSpinner "RLS: done"; startSpinner "RLS: working"] /\
  indicator (run fresh [DiagnosticsEnd; BeginBuild]) = Busy.
Proof. repeat split. Qed.

(** C1 (amended): after any interleaving of N begins and N ends delivered
    to a fresh tracker the counter is 0, and the indicator is idle unless
    the last notification handled was a begin, in which case the spinner
    has just been started and it is busy. *)
Theorem C1_balanced_run (ns : list Tracker.Notification) :
  begins ns = ends ns ->
  runningDiagnostics (run fresh ns) = 0%Z /\
  indicator (run fresh ns)
  = match last ns with
    | Some BeginBuild => Busy
    | _ => Idle
    end.
Proof.
  intros Hbal. split.
  - rewrite counter_after_run. simpl. lia.
  - destruct ns as [| n ns _] using rev_ind; [reflexivity |].
    rewrite last_snoc, run_snoc.
    pose proof (counter_after_run fresh (ns ++ [n])) as Hc.
    rewrite run_snoc, Hbal in Hc. simpl in Hc.
    destruct n; simpl in *.
    + apply indicator_snoc.
    + unfold on_diagnosticsEnd in *.
      destruct (_ <=? 0)%Z eqn:Hle.
      * apply indicator_snoc.
      * simpl in Hc. apply Z.leb_gt in Hle. lia.
Qed.

Lemma C1_balanced_run_witness :
  begins [BeginBuild; BeginBuild; DiagnosticsEnd; BeginBuild;
          DiagnosticsEnd; DiagnosticsEnd]
  = ends [BeginBuild; BeginBuild; DiagnosticsEnd; BeginBuild;
          DiagnosticsEnd; DiagnosticsEnd] /\
  runningDiagnostics
    (run fresh [BeginBuild; BeginBuild; DiagnosticsEnd; BeginBuild;
                DiagnosticsEnd; DiagnosticsEnd]) = 0%Z /\
  indicator
    (run fresh [BeginBuild; BeginBuild; DiagnosticsEnd; BeginBuild;
                DiagnosticsEnd; DiagnosticsEnd]) = Idle.
Proof.
  split; [reflexivity |].
  apply (C1_balanced_run
           [BeginBuild; BeginBuild; DiagnosticsEnd; BeginBuild;
            DiagnosticsEnd; DiagnosticsEnd]).
  reflexivity.
Defined.

(** C2, as stated, fails: a begin handled while the counter is already
    positive starts the spinner again. *)
Lemma C2_counterexample :
  (0 < runningDiagnostics (mkState 1 [startSpinner "RLS: working"]))%Z /\
  emitted (mkState 1 [startSpinner "RLS: working"]) BeginBuild
  = [startSpinner "RLS: working"].
Proof. split; reflexivity. Qed.

(** C2 (amended): in every state a begin adds 1 to the counter and calls
    [startSpinner] with the label "RLS: working", whatever the counter was;
    the indicator is busy afterwards. *)
Theorem C2_begin_always_starts (st : Tracker.State) :
  runningDiagnostics (handle st BeginBuild) = (runningDiagnostics st + 1)%Z /\
  emitted st BeginBuild = [startSpinner "RLS: working"] /\
  indicator (handle st BeginBuild) = Busy.
Proof.
  destruct st as [n cs]. unfold emitted. simpl. unfold on_beginBuild. simpl.
  repeat split.
  - now rewrite drop_app_length.
  - apply indicator_snoc.
Qed.

End TrackerFacts.

(* ===================================================================== *)
(** * Properties of the sysroot probe                                     *)
(* ===================================================================== *)

Lemma append_cons (a : ascii) (s t : string) :
  String a s +:+ t = String a (s +:+ t).
Proof. reflexivity. Qed.

Lemma append_empty_l (t : string) : "" +:+ t = t.
Proof. reflexivity. Qed.










(* ===================================================================== *)
(** * Properties of the environment builder                               *)
(* ===================================================================== *)

Lemma contents_of_initial (ambient : Env) :
  contents_of (initial ambient) process_env = ambient.
Proof. unfold contents_of, initial. simpl. now rewrite lookup_singleton_eq. Qed.

Lemma contents_of_singleton (e : Env) (t : list Effect) :
  contents_of (mkWorld {[ process_env := e ]} t) process_env = e.
Proof. unfold contents_of. simpl. now rewrite lookup_singleton_eq. Qed.

Lemma contents_of_insert (e : Env) (h : gmap loc Env) (t : list Effect) :
  contents_of (mkWorld (<[ process_env := e ]> h) t) process_env = e.
Proof. unfold contents_of. simpl. now rewrite lookup_insert_eq. Qed.

Arguments contents_of : simpl never.

(** Unfold one run of the environment builder from the initial world. *)
Ltac run_env :=
  unfold makeRlsEnv, getSysroot, bind, spawnSync, get_prop, set_prop, emit, ret,
    initial, probe_command, probe_args, SRC_SUFFIX;
  simpl; rewrite ?contents_of_singleton, ?contents_of_insert.

Ltac env_step :=
  simpl; rewrite ?contents_of_singleton, ?contents_of_insert.

Section EnvFacts.

Variable host : Host.
Variable ambient : Env.

(** The results of the first probe and of the retry. *)
Let first_try : SpawnSyncResult :=
  spawnSync_result host 0 "rustup" ["run"; "nightly"; "rustc"; "--print"; "sysroot"] ambient.
Let retry : SpawnSyncResult :=
  spawnSync_result host 1 "rustup" ["run"; "nightly"; "rustc"; "--print"; "sysroot"]
    (extended ambient).

(** [makeRlsEnv] always returns [process.env] itself. *)
Lemma makeRlsEnv_alias :
  fst (makeRlsEnv host (initial ambient)) = process_env.
Proof.
  run_env.
  destruct (truthy _); [reflexivity |].
  destruct (sysroot_of _); simpl; [reflexivity |].
  destruct (sysroot_of _); reflexivity.
Qed.

(** The contents of [process.env] after [makeRlsEnv], case by case. *)
Lemma makeRlsEnv_contents :
  contents_of (snd (makeRlsEnv host (initial ambient))) process_env
  = if truthy (ambient !! "RUST_SRC_PATH") then ambient
    else match sysroot_of first_try with
         | Str s => <[ "RUST_SRC_PATH" := s +:+ "/lib/rustlib/src/rust/src" ]> ambient
         | Error _ =>
             match sysroot_of retry with
             | Str s => <[ "RUST_SRC_PATH" := s +:+ "/lib/rustlib/src/rust/src" ]>
                          (extended ambient)
             | Error _ => extended ambient
             end
         end.
Proof.
  subst first_try retry. unfold extended. run_env.
  destruct (truthy _); [apply contents_of_singleton |].
  destruct (sysroot_of _); env_step; [reflexivity |].
  destruct (sysroot_of _); env_step; reflexivity.
Qed.

(** The probe invocations [makeRlsEnv] makes, case by case. *)
Lemma makeRlsEnv_probes :
  probes (snd (makeRlsEnv host (initial ambient)))
  = if truthy (ambient !! "RUST_SRC_PATH") then []
    else match sysroot_of first_try with
         | Str _ => [SpawnSync "rustup" ["run"; "nightly"; "rustc"; "--print"; "sysroot"]
                       process_env ambient]
         | Error _ =>
             [SpawnSync "rustup" ["run"; "nightly"; "rustc"; "--print"; "sysroot"]
                process_env ambient;
              SpawnSync "rustup" ["run"; "nightly"; "rustc"; "--print"; "sysroot"]
                process_env (extended ambient)]
         end.
Proof.
  subst first_try. unfold extended. run_env.
  destruct (truthy _); [reflexivity |].
  destruct (sysroot_of _); env_step; [reflexivity |].
  destruct (sysroot_of _); reflexivity.
Qed.

(** [makeRlsEnv] launches nothing and opens no file. *)
Lemma makeRlsEnv_launches :
  launches (snd (makeRlsEnv host (initial ambient))) = [] /\
  files_opened (snd (makeRlsEnv host (initial ambient))) = [].
Proof.
  run_env.
  destruct (truthy _); [split; reflexivity |].
  destruct (sysroot_of _); simpl; [split; reflexivity |].
  destruct (sysroot_of _); split; reflexivity.
Qed.

End EnvFacts.

Lemma truthy_Some (v : string) : v <> "" -> truthy (Some v) = true.
Proof. destruct v; [congruence | reflexivity]. Qed.

(** C8, as stated, fails: a search-path variable that is set, but to the
    empty string, counts as not set; the probe runs and the variable is
    overwritten. *)
Lemma C8_counterexample :
  empty_RUST_SRC_PATH !! "RUST_SRC_PATH" = Some "" /\
  length (probes (snd (makeRlsEnv (const_host 0 ("/x" +:+ String LF ""))
                         (initial empty_RUST_SRC_PATH)))) = 1%nat /\
  contents_of (snd (makeRlsEnv (const_host 0 ("/x" +:+ String LF ""))
                      (initial empty_RUST_SRC_PATH))) process_env !! "RUST_SRC_PATH"
  = Some "/x/lib/rustlib/src/rust/src".
Proof. repeat split; vm_compute; reflexivity. Qed.

(** C8 (amended): when the search-path variable is set to a non-empty
    value, [makeRlsEnv] returns [process.env] and leaves the world as it
    was: no probe is invoked, nothing is logged, and the variable keeps its
    value. *)
Theorem C8_set_nonempty_unchanged (host : Host) (ambient : Env) (v : string) :
  ambient !! "RUST_SRC_PATH" = Some v ->
  v <> "" ->
  makeRlsEnv host (initial ambient) = (process_env, initial ambient) /\
  probes (snd (makeRlsEnv host (initial ambient))) = [] /\
  contents_of (snd (makeRlsEnv host (initial ambient))) (fst (makeRlsEnv host (initial ambient)))
    !! "RUST_SRC_PATH" = Some v.
Proof.
  intros Hv Hne.
  assert (makeRlsEnv host (initial ambient) = (process_env, initial ambient)) as ->.
  { unfold makeRlsEnv, bind, get_prop, ret.
    rewrite contents_of_initial, Hv, (truthy_Some v Hne). reflexivity. }
  simpl. rewrite contents_of_initial. auto.
Qed.

Lemma C8_set_nonempty_unchanged_witness :
  ({[ "RUST_SRC_PATH" := "/src" ]} : Env) !! "RUST_SRC_PATH" = Some "/src" /\
  probes (snd (makeRlsEnv retry_host (initial {[ "RUST_SRC_PATH" := "/src" ]}))) = [].
Proof.
  split; [reflexivity |].
  apply (C8_set_nonempty_unchanged retry_host {[ "RUST_SRC_PATH" := "/src" ]} "/src");
    [reflexivity | discriminate].
Defined.

(** C5: when the search-path variable is not set, the first probe fails
    (for instance by exiting with 1) and the retry under the widened [PATH]
    succeeds with output [/opt/toolchain CR LF], the environment returned
    has [RUST_SRC_PATH] equal to [/opt/toolchain/lib/rustlib/src/rust/src]. *)
Theorem C5_retry_sets_src_path (host : Host) (ambient : Env) (message : string) :
  truthy (ambient !! "RUST_SRC_PATH") = false ->
  sysroot_of (spawnSync_result host 0 "rustup"
                ["run"; "nightly"; "rustc"; "--print"; "sysroot"] ambient)
  = Error message ->
  spawnSync_result host 1 "rustup"
    ["run"; "nightly"; "rustc"; "--print"; "sysroot"] (extended ambient)
  = mkSpawnSyncResult None (Some 0%Z) (Some ("/opt/toolchain" +:+ CRLF)) ->
  contents_of (snd (makeRlsEnv host (initial ambient))) (fst (makeRlsEnv host (initial ambient)))
    !! "RUST_SRC_PATH"
  = Some "/opt/toolchain/lib/rustlib/src/rust/src".
Proof.
  intros Hunset Hfirst Hretry.
  rewrite makeRlsEnv_alias, makeRlsEnv_contents, Hunset, Hfirst, Hretry.
  change (sysroot_of _) with (Str "/opt/toolchain"). cbv iota.
  now rewrite lookup_insert_eq.
Qed.

Lemma C5_retry_sets_src_path_witness :
  sysroot_of (exited 1 "")
  = Error "Error getting sysroot from `rustc`: exited with `1`" /\
  contents_of (snd (makeRlsEnv retry_host (initial PATH_only)))
    (fst (makeRlsEnv retry_host (initial PATH_only))) !! "RUST_SRC_PATH"
  = Some "/opt/toolchain/lib/rustlib/src/rust/src".
Proof.
  split; [reflexivity |].
  apply (C5_retry_sets_src_path retry_host PATH_only
           "Error getting sysroot from `rustc`: exited with `1`");
    reflexivity.
Defined.

(* ===================================================================== *)
(** * Properties of the launch                                            *)
(* ===================================================================== *)

Section LaunchFacts.

Variable host : Host.
Variable cfg : RLSConfiguration.

Ltac run_launch :=
  unfold makeRlsProcess, chosen_launch, bind, spawn, runRlsViaRustup, attach,
    emit, ret, launches, files_opened, root_command, root_args, LOG_FLAGS.

(** Launching changes no object of the store. *)
Lemma makeRlsProcess_heap (w : World) :
  heap (snd (makeRlsProcess host cfg w)) = heap (snd (makeRlsEnv host w)).
Proof.
  run_launch. destruct (makeRlsEnv host w) as [env w1]. simpl.
  destruct (truthy (rlsPath cfg)); [| destruct (truthy (rlsRoot cfg))]; simpl;
    try destruct (runRlsViaRustup_resolves _ _); simpl;
    destruct (logToFile cfg); reflexivity.
Qed.

(** Exactly one launch is attempted, after the environment is built. *)
Lemma makeRlsProcess_launches (w : World) :
  launches (snd (makeRlsProcess host cfg w))
  = (launches (snd (makeRlsEnv host w))
       ++ [chosen_launch cfg (fst (makeRlsEnv host w)) (snd (makeRlsEnv host w))])%list.
Proof.
  run_launch. destruct (makeRlsEnv host w) as [env w1]. simpl.
  destruct (truthy (rlsPath cfg)); [| destruct (truthy (rlsRoot cfg))]; simpl;
    try destruct (runRlsViaRustup_resolves _ _); simpl;
    destruct (logToFile cfg); simpl;
    rewrite ?List.filter_app; simpl; rewrite ?app_nil_r; reflexivity.
Qed.

(** A log file is opened when, and only when, a child process was obtained
    and log capture is on. *)
Lemma makeRlsProcess_files (w : World) (s : Session) :
  fst (makeRlsProcess host cfg w) = Some s ->
  logToFile cfg = true ->
  files_opened (snd (makeRlsProcess host cfg w))
  = (files_opened (snd (makeRlsEnv host w))
       ++ [CreateWriteStream (logPath host) "w+"])%list /\
  logStream s = Some (mkLogStream (logPath host) "w+" 0 false []).
Proof.
  intros Hs Hlog. revert Hs.
  run_launch. destruct (makeRlsEnv host w) as [env w1]. simpl. rewrite Hlog.
  destruct (truthy (rlsPath cfg)); [| destruct (truthy (rlsRoot cfg))]; simpl;
    try destruct (runRlsViaRustup_resolves _ _); simpl;
    intros Hs; try discriminate; injection Hs as <-; simpl;
    rewrite ?List.filter_app; simpl; rewrite ?app_nil_r; split; reflexivity.
Qed.

(** Launching invokes no probe of its own. *)
Lemma makeRlsProcess_probes (w : World) :
  probes (snd (makeRlsProcess host cfg w)) = probes (snd (makeRlsEnv host w)).
Proof.
  run_launch. unfold probes. destruct (makeRlsEnv host w) as [env w1]. simpl.
  destruct (truthy (rlsPath cfg)); [| destruct (truthy (rlsRoot cfg))]; simpl;
    try destruct (runRlsViaRustup_resolves _ _); simpl;
    destruct (logToFile cfg); simpl;
    rewrite ?List.filter_app; simpl; rewrite ?app_nil_r; reflexivity.
Qed.

Lemma env_of_chosen_launch (env : loc) (w : World) :
  env_of_launch (chosen_launch cfg env w) = Some env.
Proof.
  unfold chosen_launch.
  destruct (truthy (rlsPath cfg)); [| destruct (truthy (rlsRoot cfg))]; reflexivity.
Qed.

Variable lcOutputChannel : bool.

(** A chunk of stderr changes the session only through the log stream. *)
Lemma deliver_data (s : Session) (chunk : string) (w : World) :
  fst (deliver cfg lcOutputChannel s (StderrData chunk) w)
  = mkSession (childProcess s) (log_write chunk <$> logStream s) (mirror s).
Proof.
  unfold deliver, bind, emit, ret.
  destruct (mirror s && lcOutputChannel); [| reflexivity].
  destruct (_ <=? _)%Z; reflexivity.
Qed.

Lemma deliver_all_cons (s : Session) (e : Event) (es : list Event) (w : World) :
  deliver_all cfg lcOutputChannel s (e :: es) w
  = deliver_all cfg lcOutputChannel
      (fst (deliver cfg lcOutputChannel s e w)) es
      (snd (deliver cfg lcOutputChannel s e w)).
Proof.
  cbn [deliver_all]. unfold bind.
  now destruct (deliver cfg lcOutputChannel s e w).
Qed.

(** With one listener on an open stream, the chunks are written in the
    order they arrive and nothing else is. *)
Lemma deliver_all_data (chunks : list string) :
  forall (child : ChildProcess) (path flags : string) (done : list string)
         (m : bool) (w : World),
    logStream (fst (deliver_all cfg lcOutputChannel
                      (mkSession child (Some (mkLogStream path flags 1 false done)) m)
                      (map StderrData chunks) w))
    = Some (mkLogStream path flags 1 false (done ++ chunks)%list).
Proof.
  induction chunks as [| c chunks IH]; intros child path flags done m w.
  - simpl. unfold ret. simpl. now rewrite app_nil_r.
  - cbn [map]. rewrite deliver_all_cons, deliver_data.
    unfold log_write. simpl.
    rewrite IH. now rewrite <- app_assoc.
Qed.

End LaunchFacts.

Lemma contents_of_heap (w w' : World) (o : loc) :
  heap w = heap w' -> contents_of w o = contents_of w' o.
Proof. unfold contents_of. now intros ->. Qed.

(** C3, as stated, fails: the environment given to the server is
    [process.env] itself, and building it rewrote [PATH] and added
    [RUST_SRC_PATH] in that very object. *)
Lemma C3_counterexample :
  PATH_only !! "PATH" = Some "/usr/bin" /\
  PATH_only !! "RUST_SRC_PATH" = None /\
  map env_of_launch
    (launches (snd (makeRlsProcess retry_host (config (Some "/bin/rls") None false)
                      (initial PATH_only))))
  = [Some process_env] /\
  contents_of (snd (makeRlsProcess retry_host (config (Some "/bin/rls") None false)
                      (initial PATH_only))) process_env !! "PATH"
  = Some "~/.cargo/bin:/usr/bin" /\
  contents_of (snd (makeRlsProcess retry_host (config (Some "/bin/rls") None false)
                      (initial PATH_only))) process_env !! "RUST_SRC_PATH"
  = Some "/opt/toolchain/lib/rustlib/src/rust/src".
Proof. repeat split; vm_compute; reflexivity. Qed.

(** C3 (amended): the environment builder returns the ambient environment
    object itself, and that object is what the launch is given.  Launching
    changes nothing in it beyond what building did, and building leaves
    every variable other than [PATH] and [RUST_SRC_PATH] as it was. *)
Theorem C3_env_shared_frame (host : Host) (cfg : RLSConfiguration)
  (ambient : Env) (k : string) :
  k <> "PATH" ->
  k <> "RUST_SRC_PATH" ->
  fst (makeRlsEnv host (initial ambient)) = process_env /\
  map env_of_launch (launches (snd (makeRlsProcess host cfg (initial ambient))))
  = [Some process_env] /\
  heap (snd (makeRlsProcess host cfg (initial ambient)))
  = heap (snd (makeRlsEnv host (initial ambient))) /\
  contents_of (snd (makeRlsProcess host cfg (initial ambient))) process_env !! k
  = ambient !! k.
Proof.
  intros Hpath Hsrc.
  split; [apply makeRlsEnv_alias |].
  split.
  { rewrite makeRlsProcess_launches.
    rewrite (proj1 (makeRlsEnv_launches host ambient)), makeRlsEnv_alias.
    simpl. now rewrite env_of_chosen_launch. }
  split; [apply makeRlsProcess_heap |].
  rewrite (contents_of_heap _ _ _ (makeRlsProcess_heap host cfg (initial ambient))).
  rewrite makeRlsEnv_contents. unfold extended.
  destruct (truthy _); [reflexivity |].
  destruct (sysroot_of _).
  - now rewrite lookup_insert_ne by congruence.
  - destruct (sysroot_of _); now rewrite !lookup_insert_ne by congruence.
Qed.

Lemma C3_env_shared_frame_witness :
  "HOME" <> "PATH" /\
  "HOME" <> "RUST_SRC_PATH" /\
  contents_of (snd (makeRlsProcess retry_host (config None None false)
                      (initial {[ "HOME" := "/home/me" ]}))) process_env !! "HOME"
  = Some "/home/me".
Proof.
  split; [discriminate |]. split; [discriminate |].
  destruct (C3_env_shared_frame retry_host (config None None false)
              {[ "HOME" := "/home/me" ]} "HOME"
              ltac:(discriminate) ltac:(discriminate)) as (_ & _ & _ & Hframe).
  exact Hframe.
Defined.

(** C6: with an explicit executable path (a non-empty string) and an
    explicit project root in the configuration, the only launch attempted
    is the spawn of that executable, with no arguments, no working
    directory and the environment that was built. *)
Theorem C6_explicit_path_wins (host : Host) (cfg : RLSConfiguration)
  (ambient : Env) (path root : string) :
  rlsPath cfg = Some path ->
  path <> "" ->
  rlsRoot cfg = Some root ->
  launches (snd (makeRlsProcess host cfg (initial ambient)))
  = [Spawn path [] None
       (fst (makeRlsEnv host (initial ambient)))
       (contents_of (snd (makeRlsEnv host (initial ambient)))
          (fst (makeRlsEnv host (initial ambient))))].
Proof.
  intros Hpath Hne Hroot.
  rewrite makeRlsProcess_launches, (proj1 (makeRlsEnv_launches host ambient)).
  unfold chosen_launch. rewrite Hpath, (truthy_Some path Hne). reflexivity.
Qed.

Lemma C6_explicit_path_wins_witness :
  map env_of_launch
    (launches (snd (makeRlsProcess retry_host
                      (config (Some "/bin/rls") (Some "/src/rls") false)
                      (initial PATH_only))))
  = [Some process_env] /\
  length (launches (snd (makeRlsProcess retry_host
                           (config (Some "/bin/rls") (Some "/src/rls") false)
                           (initial PATH_only)))) = 1%nat.
Proof.
  rewrite (C6_explicit_path_wins retry_host
             (config (Some "/bin/rls") (Some "/src/rls") false)
             PATH_only "/bin/rls" "/src/rls");
    [| reflexivity | discriminate | reflexivity].
  rewrite makeRlsEnv_alias. split; reflexivity.
Defined.

(** C10: with no explicit executable path and an explicit project root (a
    non-empty string), the only launch attempted is [rustup] with the
    arguments [run nighty cargo run --release] in the project root; every
    probe made on the way is [rustup run nightly rustc --print sysroot], so
    the two channel names differ. *)
Theorem C10_root_launch_uses_nighty (host : Host) (cfg : RLSConfiguration)
  (ambient : Env) (root : string) :
  truthy (rlsPath cfg) = false ->
  rlsRoot cfg = Some root ->
  root <> "" ->
  launches (snd (makeRlsProcess host cfg (initial ambient)))
  = [Spawn "rustup" ["run"; "nighty"; "cargo"; "run"; "--release"] (Some root)
       (fst (makeRlsEnv host (initial ambient)))
       (contents_of (snd (makeRlsEnv host (initial ambient)))
          (fst (makeRlsEnv host (initial ambient))))] /\
  Forall (fun e => probe_argv e
                   = Some ("rustup", ["run"; "nightly"; "rustc"; "--print"; "sysroot"]))
    (probes (snd (makeRlsProcess host cfg (initial ambient)))) /\
  root_args !! 1%nat = Some "nighty" /\
  probe_args !! 1%nat = Some "nightly" /\
  "nighty" <> "nightly".
Proof.
  intros Hpath Hroot Hne. split.
  { rewrite makeRlsProcess_launches, (proj1 (makeRlsEnv_launches host ambient)).
    unfold chosen_launch. rewrite Hpath, Hroot, (truthy_Some root Hne). reflexivity. }
  split; [| repeat split; discriminate].
  rewrite makeRlsProcess_probes, makeRlsEnv_probes.
  destruct (truthy (ambient !! _)); [constructor |].
  destruct (sysroot_of _); repeat constructor.
Qed.

Lemma C10_root_launch_uses_nighty_witness :
  truthy (rlsPath (config None (Some "/src/rls") false)) = false /\
  length (launches (snd (makeRlsProcess retry_host (config None (Some "/src/rls") false)
                           (initial PATH_only)))) = 1%nat.
Proof.
  split; [reflexivity |].
  rewrite (proj1 (C10_root_launch_uses_nighty retry_host
                    (config None (Some "/src/rls") false) PATH_only "/src/rls"
                    eq_refl eq_refl ltac:(discriminate))).
  reflexivity.
Defined.

(** C9, as stated, fails on the mode: the log file is opened with the flags
    [w+] (read and write, created or truncated), which is not an append
    mode. *)
Lemma C9_counterexample :
  files_opened (snd (makeRlsProcess retry_host (config (Some "/bin/rls") None true)
                       (initial PATH_only)))
  = [CreateWriteStream "/home/me/project/rls1500000000000.log" "w+"] /\
  is_append_mode "w+" = false.
Proof. split; vm_compute; reflexivity. Qed.

(** C9 (amended): when log capture is on and a child process was obtained,
    exactly one file is opened, with the flags [w+], at the workspace root
    followed by [/rls], the time in milliseconds and [.log]; once the stream
    is open, the chunks of the child's standard error are written to it in
    order, as text, with nothing added. *)
Theorem C9_log_capture (host : Host) (cfg : RLSConfiguration) (ambient : Env)
  (s : Session) (lcOutputChannel : bool) (chunks : list string) (w : World) :
  logToFile cfg = true ->
  fst (makeRlsProcess host cfg (initial ambient)) = Some s ->
  files_opened (snd (makeRlsProcess host cfg (initial ambient)))
  = [CreateWriteStream
       (to_js_string (workspace_rootPath host) +:+ "/rls"
          +:+ pretty (Date_now host) +:+ ".log") "w+"] /\
  log_contents (fst (deliver_all cfg lcOutputChannel s
                       (LogOpen :: map StderrData chunks) w))
  = fold_right String.append "" chunks.
Proof.
  intros Hlog Hs.
  destruct (makeRlsProcess_files host cfg (initial ambient) s Hs Hlog) as [Hfiles Hstream].
  split.
  - rewrite Hfiles, (proj2 (makeRlsEnv_launches host ambient)). reflexivity.
  - rewrite deliver_all_cons. cbn [deliver]. rewrite Hstream.
    unfold ret.
    cbn [fst snd log_path log_flags data_listeners ended written].
    unfold log_contents. now rewrite deliver_all_data.
Qed.

Lemma C9_log_capture_witness :
  logToFile (config (Some "/bin/rls") None true) = true /\
  log_contents
    (fst (deliver_all (config (Some "/bin/rls") None true) true
            (mkSession (child_no 0)
               (Some (mkLogStream "/home/me/project/rls1500000000000.log" "w+" 0 false []))
               false)
            (LogOpen :: map StderrData ["warning: "; "unused" +:+ String LF ""])
            (initial PATH_only)))
  = "warning: unused" +:+ String LF "".
Proof.
  split; [reflexivity |].
  destruct (C9_log_capture retry_host (config (Some "/bin/rls") None true) PATH_only
              (mkSession (child_no 0)
                 (Some (mkLogStream "/home/me/project/rls1500000000000.log" "w+" 0 false []))
                 false)
              true ["warning: "; "unused" +:+ String LF ""] (initial PATH_only)
              eq_refl eq_refl) as [_ Hlog].
  exact Hlog.
Defined.

(* ===================================================================== *)
(** * More on the progress counter                                        *)
(* ===================================================================== *)

Section TrackerMore.

Import Tracker.

Lemma indicator_same_calls (n m : Z) (cs : list SpinnerCall) :
  indicator (mkState n cs) = indicator (mkState m cs).
Proof. reflexivity. Qed.

(** Whenever the spinner is shown stopped, no build is counted as running. *)
Lemma idle_means_none_running (ns : list Notification) :
  indicator (run fresh ns) = Idle -> (runningDiagnostics (run fresh ns) <= 0)%Z.
Proof.
  induction ns as [| n ns IH] using rev_ind; [simpl; lia |].
  rewrite run_snoc. destruct (run fresh ns) as [c cs] eqn:Hrun.
  destruct n; simpl; unfold on_beginBuild, on_diagnosticsEnd; simpl.
  - rewrite indicator_snoc. discriminate.
  - destruct (c - 1 <=? 0)%Z eqn:Hle; simpl.
    + intros _. now apply Z.leb_le.
    + intros Hidle. rewrite (indicator_same_calls _ c) in Hidle.
      specialize (IH Hidle). simpl in IH. lia.
Qed.

(** X1: the counter is the number of begins minus the number of ends, in
    whatever order they arrived; nothing keeps it from going below zero. *)
Theorem X1_counter_is_begins_minus_ends (ns : list Tracker.Notification) :
  runningDiagnostics (run fresh ns) = (Z.of_nat (begins ns) - Z.of_nat (ends ns))%Z.
Proof. rewrite counter_after_run. simpl. lia. Qed.

(** X2: after more begins than ends, in any order, the spinner is shown
    running. *)
Theorem X2_more_begins_than_ends_is_busy (ns : list Tracker.Notification) :
  (ends ns < begins ns)%nat ->
  indicator (run fresh ns) = Busy.
Proof.
  intros Hmore.
  destruct (indicator (run fresh ns)) eqn:Hind; [| reflexivity].
  apply idle_means_none_running in Hind.
  rewrite counter_after_run in Hind. simpl in Hind. lia.
Qed.

Lemma X2_more_begins_than_ends_is_busy_witness :
  (ends [DiagnosticsEnd; BeginBuild; BeginBuild; BeginBuild; DiagnosticsEnd]
   < begins [DiagnosticsEnd; BeginBuild; BeginBuild; BeginBuild; DiagnosticsEnd])%nat /\
  indicator (run fresh [DiagnosticsEnd; BeginBuild; BeginBuild; BeginBuild; DiagnosticsEnd])
  = Busy.
Proof.
  split; [vm_compute; lia |].
  apply (X2_more_begins_than_ends_is_busy
           [DiagnosticsEnd; BeginBuild; BeginBuild; BeginBuild; DiagnosticsEnd]).
  vm_compute; lia.
Defined.

Lemma well_nested_run (ns : list Notification) :
  forall (depth : nat) (st : State),
    runningDiagnostics st = Z.of_nat depth ->
    indicator st = (if (0 <? runningDiagnostics st)%Z then Busy else Idle) ->
    well_nested depth ns = true ->
    (0 <= runningDiagnostics (run st ns))%Z /\
    indicator (run st ns)
    = (if (0 <? runningDiagnostics (run st ns))%Z then Busy else Idle).
Proof.
  induction ns as [| n ns IH]; intros depth st Hc Hi Hwn.
  - simpl. split; [lia | exact Hi].
  - destruct st as [c cs]. simpl in Hc. destruct n; simpl in Hwn.
    + apply (IH (S depth)); [simpl; lia | | exact Hwn].
      simpl. unfold on_beginBuild. simpl. rewrite indicator_snoc.
      destruct (0 <? c + 1)%Z eqn:Hpos; [reflexivity |].
      apply Z.ltb_ge in Hpos. lia.
    + destruct depth as [| d]; [discriminate |].
      apply (IH d); [| | exact Hwn]; simpl; unfold on_diagnosticsEnd; simpl.
      * destruct (c - 1 <=? 0)%Z; simpl; lia.
      * destruct (c - 1 <=? 0)%Z eqn:Hle; simpl.
        -- rewrite indicator_snoc. apply Z.leb_le in Hle.
           destruct (0 <? c - 1)%Z eqn:Hpos; [| reflexivity].
           apply Z.ltb_lt in Hpos. lia.
        -- rewrite (indicator_same_calls _ c), Hi. simpl.
           apply Z.leb_gt in Hle.
           destruct (0 <? c)%Z eqn:Hc0; [| apply Z.ltb_ge in Hc0; lia].
           destruct (0 <? c - 1)%Z eqn:Hpos; [reflexivity |].
           apply Z.ltb_ge in Hpos. lia.
Qed.

(** X3: when no end arrives before its begin, the counter never goes below
    zero and the spinner is shown running exactly when the counter is
    positive. *)
Theorem X3_well_nested_indicator_follows_counter (ns : list Tracker.Notification) :
  well_nested 0 ns = true ->
  (0 <= runningDiagnostics (run fresh ns))%Z /\
  indicator (run fresh ns)
  = (if (0 <? runningDiagnostics (run fresh ns))%Z then Busy else Idle).
Proof.
  intros Hwn. now apply (well_nested_run ns 0 fresh).
Qed.

Lemma X3_well_nested_indicator_follows_counter_witness :
  well_nested 0 [BeginBuild; BeginBuild; DiagnosticsEnd; BeginBuild; DiagnosticsEnd] = true /\
  runningDiagnostics
    (run fresh [BeginBuild; BeginBuild; DiagnosticsEnd; BeginBuild; DiagnosticsEnd]) = 1%Z /\
  indicator
    (run fresh [BeginBuild; BeginBuild; DiagnosticsEnd; BeginBuild; DiagnosticsEnd]) = Busy.
Proof.
  split; [reflexivity |]. split; [reflexivity |].
  destruct (X3_well_nested_indicator_follows_counter
              [BeginBuild; BeginBuild; DiagnosticsEnd; BeginBuild; DiagnosticsEnd]
              eq_refl) as [_ Hshown].
  exact Hshown.
Defined.

(** X4: ends that arrive when at most one build is counted stop the spinner
    every time: k of them take the counter down by k, below zero if need
    be, and call [stopSpinner] k times. *)
Theorem X4_repeated_ends_stop_again (k : nat) (st : Tracker.State) :
  (runningDiagnostics st <= 1)%Z ->
  run st (replicate k DiagnosticsEnd)
  = mkState (runningDiagnostics st - Z.of_nat k)
      (calls st ++ replicate k (stopSpinner "RLS: done")).
Proof.
  revert st. induction k as [| k IH]; intros [c cs] Hc; simpl in *.
  - rewrite app_nil_r. f_equal. lia.
  - unfold on_diagnosticsEnd. simpl.
    destruct (c - 1 <=? 0)%Z eqn:Hle; [| apply Z.leb_gt in Hle; lia].
    fold (run (mkState (c - 1) (cs ++ [stopSpinner "RLS: done"]))
            (replicate k DiagnosticsEnd)).
    rewrite IH by (simpl; lia). simpl. rewrite <- app_assoc. simpl.
    f_equal. lia.
Qed.

Lemma X4_repeated_ends_stop_again_witness :
  (runningDiagnostics fresh <= 1)%Z /\
  run fresh (replicate 3 DiagnosticsEnd)
  = mkState (-3) [stopSpinner "RLS: done"; stopSpinner "RLS: done"; stopSpinner "RLS: done"].
Proof.
  split; [vm_compute; discriminate |].
  apply (X4_repeated_ends_stop_again 3 fresh). vm_compute; discriminate.
Defined.

End TrackerMore.

(* ===================================================================== *)
(** * More on the sysroot probe                                           *)
(* ===================================================================== *)

Lemma length_replace_first (c : ascii) (s : string) :
  (String.length (replace_first c s) + (if occurs c s then 1 else 0))%nat
  = String.length s.
Proof.
  induction s as [| a s IH]; [reflexivity |].
  cbn [replace_first occurs]. destruct (Ascii.eqb a c); cbn [orb String.length]; lia.
Qed.

Lemma occurs_replace_first_other (c d : ascii) (s : string) :
  c <> d -> occurs d (replace_first c s) = occurs d s.
Proof.
  intros Hne. induction s as [| a s IH]; [reflexivity |].
  cbn [replace_first occurs]. destruct (Ascii.eqb a c) eqn:Hac.
  - apply Ascii.eqb_eq in Hac. subst a.
    destruct (Ascii.eqb c d) eqn:Hcd; [| reflexivity].
    apply Ascii.eqb_eq in Hcd. contradiction.
  - cbn [occurs]. now rewrite IH.
Qed.

(** X22: a successful probe drops at most two characters of the output:
    one newline if the output has any, and one carriage return if it has
    any; every further newline or carriage return stays in the sysroot. *)
Theorem X22_probe_drops_one_of_each (r : SpawnSyncResult) (out s : string) :
  stdout r = Some out ->
  sysroot_of r = Str s ->
  (String.length s + (if occurs LF out then 1 else 0)
   + (if occurs CR out then 1 else 0))%nat
  = String.length out.
Proof.
  intros Hout. unfold sysroot_of. rewrite Hout.
  destruct (error r); [discriminate |].
  destruct (gt_zero (status r)); [discriminate |].
  intros [= <-].
  pose proof (length_replace_first CR (replace_first LF out)) as Hcr.
  pose proof (length_replace_first LF out) as Hlf.
  rewrite occurs_replace_first_other in Hcr by discriminate.
  lia.
Qed.

Lemma X22_probe_drops_one_of_each_witness :
  sysroot_of (ok ("/x" +:+ String LF "/y" +:+ String LF "")) = Str ("/x/y" +:+ String LF "") /\
  (String.length ("/x/y" +:+ String LF "") + 1 + 0)%nat
  = String.length ("/x" +:+ String LF "/y" +:+ String LF "").
Proof.
  split; [reflexivity |].
  apply (X22_probe_drops_one_of_each (ok ("/x" +:+ String LF "/y" +:+ String LF ""))
           ("/x" +:+ String LF "/y" +:+ String LF "") ("/x/y" +:+ String LF ""));
    reflexivity.
Defined.

(* ===================================================================== *)
(** * More on the environment builder                                     *)
(* ===================================================================== *)

Lemma contents_of_mk (h : gmap loc Env) (t t' : list Effect) (o : loc) :
  contents_of (mkWorld h t) o = contents_of (mkWorld h t') o.
Proof. reflexivity. Qed.

Lemma probes_snoc (h : gmap loc Env) (t : list Effect) (e : Effect) :
  probes (mkWorld h (t ++ [e]))
  = (probes (mkWorld h t) ++ (if is_spawnSync e then [e] else []))%list.
Proof.
  unfold probes. simpl. rewrite List.filter_app. simpl.
  now destruct (is_spawnSync e).
Qed.

Section EnvMore.

Variable host : Host.

(** One run of [makeRlsEnv] from any world, case by case: the object
    returned, the store and the effects added. *)
Lemma makeRlsEnv_run (w : World) :
  makeRlsEnv host w
  = let e := contents_of w process_env in
    let n := length (probes w) in
    let probe_at := fun (i : nat) (env : Env) =>
      spawnSync_result host i "rustup"
        ["run"; "nightly"; "rustc"; "--print"; "sysroot"] env in
    let probed := fun (env : Env) =>
      SpawnSync "rustup" ["run"; "nightly"; "rustc"; "--print"; "sysroot"]
        process_env env in
    if truthy (e !! "RUST_SRC_PATH") then (process_env, w)
    else
      match sysroot_of (probe_at n e) with
      | Str s =>
          (process_env,
           mkWorld (<[ process_env := <[ "RUST_SRC_PATH" := s +:+ "/lib/rustlib/src/rust/src" ]> e ]>
                      (heap w))
                   (trace w ++ [probed e; ConsoleInfo ["Setting sysroot to"; s]]))
      | Error m =>
          match sysroot_of (probe_at (S n) (extended e)) with
          | Str s =>
              (process_env,
               mkWorld (<[ process_env :=
                             <[ "RUST_SRC_PATH" := s +:+ "/lib/rustlib/src/rust/src" ]>
                               (extended e) ]> (heap w))
                       (trace w ++ [probed e; ConsoleInfo [m];
                                    ConsoleInfo ["Let's retry with extended $PATH"];
                                    probed (extended e);
                                    ConsoleInfo ["Setting sysroot to"; s]]))
          | Error m2 =>
              (process_env,
               mkWorld (<[ process_env := extended e ]> (heap w))
                       (trace w ++ [probed e; ConsoleInfo [m];
                                    ConsoleInfo ["Let's retry with extended $PATH"];
                                    probed (extended e);
                                    ConsoleWarn ["Error reading sysroot (second try)"; m2];
                                    ShowWarningMessage WARN_NO_SYSROOT]))
          end
      end.
Proof.
  destruct w as [h t]. cbv zeta.
  unfold makeRlsEnv, getSysroot, bind, spawnSync, get_prop, set_prop, emit, ret,
    probe_command, probe_args, SRC_SUFFIX, contents_of.
  cbn [heap trace fst snd].
  destruct (truthy _); [reflexivity |].
  destruct (sysroot_of _) as [s | m].
  - cbn [heap trace]. now rewrite <- app_assoc.
  - cbn [heap trace]. rewrite !lookup_insert_eq. cbn [default].
    fold (extended (default ∅ (h !! process_env))).
    rewrite !probes_snoc. cbn [is_spawnSync]. rewrite !app_nil_r, length_app.
    cbn [length]. rewrite Nat.add_1_r.
    destruct (sysroot_of _) as [s | m2].
    + cbn [heap trace]. rewrite !lookup_insert_eq, insert_insert_eq. cbn [default].
      now rewrite <- !app_assoc.
    + cbn [heap trace]. now rewrite <- !app_assoc.
Qed.

Variable ambient : Env.

(** [makeRlsEnv_run] at activation, when nothing has happened yet. *)
Lemma makeRlsEnv_first_run :
  makeRlsEnv host (initial ambient)
  = if truthy (ambient !! "RUST_SRC_PATH") then (process_env, initial ambient)
    else
      match sysroot_of (spawnSync_result host 0 "rustup"
                          ["run"; "nightly"; "rustc"; "--print"; "sysroot"] ambient) with
      | Str s =>
          (process_env,
           mkWorld {[ process_env := <[ "RUST_SRC_PATH" := s +:+ "/lib/rustlib/src/rust/src" ]>
                                       ambient ]}
                   [SpawnSync "rustup" ["run"; "nightly"; "rustc"; "--print"; "sysroot"]
                      process_env ambient;
                    ConsoleInfo ["Setting sysroot to"; s]])
      | Error m =>
          match sysroot_of (spawnSync_result host 1 "rustup"
                              ["run"; "nightly"; "rustc"; "--print"; "sysroot"]
                              (extended ambient)) with
          | Str s =>
              (process_env,
               mkWorld {[ process_env :=
                            <[ "RUST_SRC_PATH" := s +:+ "/lib/rustlib/src/rust/src" ]>
                              (extended ambient) ]}
                       [SpawnSync "rustup" ["run"; "nightly"; "rustc"; "--print"; "sysroot"]
                          process_env ambient;
                        ConsoleInfo [m];
                        ConsoleInfo ["Let's retry with extended $PATH"];
                        SpawnSync "rustup" ["run"; "nightly"; "rustc"; "--print"; "sysroot"]
                          process_env (extended ambient);
                        ConsoleInfo ["Setting sysroot to"; s]])
          | Error m2 =>
              (process_env,
               mkWorld {[ process_env := extended ambient ]}
                       [SpawnSync "rustup" ["run"; "nightly"; "rustc"; "--print"; "sysroot"]
                          process_env ambient;
                        ConsoleInfo [m];
                        ConsoleInfo ["Let's retry with extended $PATH"];
                        SpawnSync "rustup" ["run"; "nightly"; "rustc"; "--print"; "sysroot"]
                          process_env (extended ambient);
                        ConsoleWarn ["Error reading sysroot (second try)"; m2];
                        ShowWarningMessage WARN_NO_SYSROOT])
          end
      end.
Proof.
  rewrite makeRlsEnv_run. cbv zeta. rewrite contents_of_initial.
  change (length (probes (initial ambient))) with 0%nat.
  unfold initial. cbn [heap trace app].
  rewrite !insert_singleton_eq. reflexivity.
Qed.

End EnvMore.

Lemma append_nonempty_r (s t : string) : t <> "" -> s +:+ t <> "".
Proof.
  intros Ht. destruct s as [| a s]; [exact Ht |].
  rewrite append_cons. discriminate.
Qed.

Lemma truthy_src_path (s : string) :
  truthy (Some (s +:+ "/lib/rustlib/src/rust/src")) = true.
Proof. apply truthy_Some, append_nonempty_r. discriminate. Qed.

(** X5: a probe that reports no error, a status that is not positive, and
    an empty output is not a failure: the sysroot is taken to be the empty
    string, [RUST_SRC_PATH] becomes the bare suffix, nothing is retried and
    no warning is shown. *)
Theorem X5_empty_output_is_accepted (host : Host) (ambient : Env) (st : option Z) :
  truthy (ambient !! "RUST_SRC_PATH") = false ->
  spawnSync_result host 0 "rustup" ["run"; "nightly"; "rustc"; "--print"; "sysroot"] ambient
  = mkSpawnSyncResult None st (Some "") ->
  gt_zero st = false ->
  contents_of (snd (makeRlsEnv host (initial ambient))) process_env !! "RUST_SRC_PATH"
  = Some "/lib/rustlib/src/rust/src" /\
  length (probes (snd (makeRlsEnv host (initial ambient)))) = 1%nat /\
  warnings (snd (makeRlsEnv host (initial ambient))) = [].
Proof.
  intros Hunset Hres Hst.
  rewrite makeRlsEnv_first_run, Hunset, Hres.
  unfold sysroot_of. cbn [error status stdout]. rewrite Hst.
  cbn [replace_first snd]. rewrite contents_of_singleton, lookup_insert_eq.
  repeat split.
Qed.

Lemma X5_empty_output_is_accepted_witness :
  gt_zero (Some 0%Z) = false /\
  contents_of (snd (makeRlsEnv (const_host 0 "") (initial PATH_only))) process_env
    !! "RUST_SRC_PATH"
  = Some "/lib/rustlib/src/rust/src".
Proof.
  split; [reflexivity |].
  destruct (X5_empty_output_is_accepted (const_host 0 "") PATH_only (Some 0%Z)
              eq_refl eq_refl eq_refl) as [Hsrc _].
  exact Hsrc.
Defined.

(** X6: when the search-path variable is not set and the first probe
    succeeds with sysroot [s], there is exactly one probe and no retry; the
    environment is the ambient one with [RUST_SRC_PATH] set to [s] followed
    by the suffix, so [PATH] is not touched; no warning is shown. *)
Theorem X6_first_probe_success (host : Host) (ambient : Env) (s : string) :
  truthy (ambient !! "RUST_SRC_PATH") = false ->
  sysroot_of (spawnSync_result host 0 "rustup"
                ["run"; "nightly"; "rustc"; "--print"; "sysroot"] ambient) = Str s ->
  contents_of (snd (makeRlsEnv host (initial ambient))) process_env
  = <[ "RUST_SRC_PATH" := s +:+ "/lib/rustlib/src/rust/src" ]> ambient /\
  probes (snd (makeRlsEnv host (initial ambient)))
  = [SpawnSync "rustup" ["run"; "nightly"; "rustc"; "--print"; "sysroot"]
       process_env ambient] /\
  warnings (snd (makeRlsEnv host (initial ambient))) = [].
Proof.
  intros Hunset Hfirst.
  rewrite makeRlsEnv_first_run, Hunset, Hfirst. cbn [snd].
  rewrite contents_of_singleton. repeat split.
Qed.

Lemma X6_first_probe_success_witness :
  truthy (HOME_PATH !! "RUST_SRC_PATH") = false /\
  contents_of (snd (makeRlsEnv (const_host 0 ("/sys" +:+ String LF "")) (initial HOME_PATH)))
    process_env
  = <[ "RUST_SRC_PATH" := "/sys/lib/rustlib/src/rust/src" ]> HOME_PATH.
Proof.
  split; [reflexivity |].
  destruct (X6_first_probe_success (const_host 0 ("/sys" +:+ String LF "")) HOME_PATH "/sys"
              eq_refl eq_refl) as [Hcontents _].
  exact Hcontents.
Defined.

(** X7: building the environment shows at most one warning, and shows it
    exactly when the search-path variable is not set and both the first
    probe and the retry fail. *)
Theorem X7_warning_iff_both_probes_fail (host : Host) (ambient : Env) :
  warnings (snd (makeRlsEnv host (initial ambient)))
  = if truthy (ambient !! "RUST_SRC_PATH") then []
    else
      match sysroot_of (spawnSync_result host 0 "rustup"
                          ["run"; "nightly"; "rustc"; "--print"; "sysroot"] ambient),
            sysroot_of (spawnSync_result host 1 "rustup"
                          ["run"; "nightly"; "rustc"; "--print"; "sysroot"]
                          (extended ambient)) with
      | Error _, Error _ =>
          [ShowWarningMessage
             "RLS could not set RUST_SRC_PATH for Racer because it could not read the Rust sysroot."]
      | _, _ => []
      end.
Proof.
  rewrite makeRlsEnv_first_run.
  destruct (truthy _); [reflexivity |].
  destruct (sysroot_of _); [reflexivity |].
  destruct (sysroot_of _); reflexivity.
Qed.

(** X8: once the first probe has failed, [PATH] in [process.env] is the
    per-user toolchain directory ([HOME], or [~] when [HOME] is unset or
    empty, followed by [/.cargo/bin:]) in front of the old [PATH] (or of
    nothing when it was unset), and it stays so whether the retry succeeds
    or not. *)
Theorem X8_failed_probe_extends_PATH (host : Host) (ambient : Env) (m : string) :
  truthy (ambient !! "RUST_SRC_PATH") = false ->
  sysroot_of (spawnSync_result host 0 "rustup"
                ["run"; "nightly"; "rustc"; "--print"; "sysroot"] ambient) = Error m ->
  contents_of (snd (makeRlsEnv host (initial ambient))) process_env !! "PATH"
  = Some (or_else (ambient !! "HOME") "~" +:+ "/.cargo/bin:"
            +:+ or_else (ambient !! "PATH") "") /\
  contents_of (snd (makeRlsEnv host (initial ambient))) process_env !! "HOME"
  = ambient !! "HOME".
Proof.
  intros Hunset Hfirst.
  rewrite makeRlsEnv_first_run, Hunset, Hfirst. clear Hfirst.
  destruct (sysroot_of _); cbn [snd]; rewrite contents_of_singleton; unfold extended.
  - rewrite !(lookup_insert_ne _ "RUST_SRC_PATH") by discriminate.
    rewrite lookup_insert_eq, lookup_insert_ne by discriminate. split; reflexivity.
  - rewrite lookup_insert_eq, lookup_insert_ne by discriminate. split; reflexivity.
Qed.

Lemma X8_failed_probe_extends_PATH_witness :
  contents_of (snd (makeRlsEnv no_rustup_host (initial bare_env))) process_env !! "PATH"
  = Some "~/.cargo/bin:" /\
  contents_of (snd (makeRlsEnv retry_host (initial HOME_PATH))) process_env !! "PATH"
  = Some "/home/me/.cargo/bin:/usr/bin".
Proof.
  split.
  - destruct (X8_failed_probe_extends_PATH no_rustup_host bare_env
                "Error running `rustc`: Error: spawnSync rustup ENOENT"
                eq_refl eq_refl) as [Hpath _].
    exact Hpath.
  - destruct (X8_failed_probe_extends_PATH retry_host HOME_PATH
                "Error getting sysroot from `rustc`: exited with `1`"
                eq_refl eq_refl) as [Hpath _].
    exact Hpath.
Defined.

(** X9: when both probes fail the environment returned is the ambient one
    with only [PATH] changed: [RUST_SRC_PATH] is left as it was, and exactly
    two probes were made, the second under the widened [PATH]. *)
Theorem X9_both_probes_fail (host : Host) (ambient : Env) (m m2 : string) :
  truthy (ambient !! "RUST_SRC_PATH") = false ->
  sysroot_of (spawnSync_result host 0 "rustup"
                ["run"; "nightly"; "rustc"; "--print"; "sysroot"] ambient) = Error m ->
  sysroot_of (spawnSync_result host 1 "rustup"
                ["run"; "nightly"; "rustc"; "--print"; "sysroot"] (extended ambient))
  = Error m2 ->
  contents_of (snd (makeRlsEnv host (initial ambient))) process_env = extended ambient /\
  contents_of (snd (makeRlsEnv host (initial ambient))) process_env !! "RUST_SRC_PATH"
  = ambient !! "RUST_SRC_PATH" /\
  probes (snd (makeRlsEnv host (initial ambient)))
  = [SpawnSync "rustup" ["run"; "nightly"; "rustc"; "--print"; "sysroot"]
       process_env ambient;
     SpawnSync "rustup" ["run"; "nightly"; "rustc"; "--print"; "sysroot"]
       process_env (extended ambient)].
Proof.
  intros Hunset Hfirst Hretry.
  rewrite makeRlsEnv_first_run, Hunset, Hfirst, Hretry. cbn [snd].
  rewrite contents_of_singleton. repeat split.
  unfold extended. now rewrite lookup_insert_ne by discriminate.
Qed.

Lemma X9_both_probes_fail_witness :
  contents_of (snd (makeRlsEnv no_rustup_host (initial HOME_PATH))) process_env
    !! "RUST_SRC_PATH" = None /\
  length (probes (snd (makeRlsEnv no_rustup_host (initial HOME_PATH)))) = 2%nat.
Proof.
  destruct (X9_both_probes_fail no_rustup_host HOME_PATH
              "Error running `rustc`: Error: spawnSync rustup ENOENT"
              "Error running `rustc`: Error: spawnSync rustup ENOENT"
              eq_refl eq_refl eq_refl) as (_ & Hsrc & Hprobes).
  split; [exact Hsrc | now rewrite Hprobes].
Defined.

(** X10: unless the warning was shown, the search-path variable is set when
    [makeRlsEnv] returns, so a later call (on a restart of the server, with
    whatever the probe would answer then) makes no probe and changes
    nothing. *)
Theorem X10_later_call_changes_nothing (host later : Host) (ambient : Env) :
  warnings (snd (makeRlsEnv host (initial ambient))) = [] ->
  makeRlsEnv later (snd (makeRlsEnv host (initial ambient)))
  = (process_env, snd (makeRlsEnv host (initial ambient))).
Proof.
  rewrite makeRlsEnv_first_run.
  destruct (truthy (ambient !! _)) eqn:Hset.
  - intros _. cbn [snd]. rewrite makeRlsEnv_run. cbv zeta.
    now rewrite contents_of_initial, Hset.
  - destruct (sysroot_of _).
    + intros _. cbn [snd]. rewrite makeRlsEnv_run. cbv zeta.
      now rewrite contents_of_singleton, lookup_insert_eq, truthy_src_path.
    + destruct (sysroot_of _).
      * intros _. cbn [snd]. rewrite makeRlsEnv_run. cbv zeta.
        now rewrite contents_of_singleton, lookup_insert_eq, truthy_src_path.
      * discriminate.
Qed.

Lemma X10_later_call_changes_nothing_witness :
  warnings (snd (makeRlsEnv retry_host (initial HOME_PATH))) = [] /\
  probes (snd (makeRlsEnv no_rustup_host (snd (makeRlsEnv retry_host (initial HOME_PATH)))))
  = probes (snd (makeRlsEnv retry_host (initial HOME_PATH))).
Proof.
  split; [reflexivity |].
  now rewrite (X10_later_call_changes_nothing retry_host no_rustup_host HOME_PATH eq_refl).
Defined.

Lemma append_assoc (s t u : string) : (s +:+ t) +:+ u = s +:+ (t +:+ u).
Proof.
  induction s as [| a s IH]; [reflexivity |].
  now rewrite !append_cons, IH.
Qed.

Lemma append_nonempty_l (s t : string) : s <> "" -> s +:+ t <> "".
Proof. destruct s as [| a s]; [congruence |]. rewrite append_cons. discriminate. Qed.

Lemma or_else_Some (v d : string) : v <> "" -> or_else (Some v) d = v.
Proof. intros Hv. unfold or_else. now rewrite (truthy_Some v Hv). Qed.

Lemma cargo_bin_nonempty (e : Env) : cargo_bin e <> "".
Proof. unfold cargo_bin. apply append_nonempty_r. discriminate. Qed.

Lemma extended_lookup_PATH (e : Env) :
  extended e !! "PATH" = Some (cargo_bin e +:+ or_else (e !! "PATH") "").
Proof. unfold extended, cargo_bin. now rewrite lookup_insert_eq, append_assoc. Qed.

Lemma iter_extended_other (k : nat) (e : Env) (key : string) :
  key <> "PATH" -> Nat.iter k extended e !! key = e !! key.
Proof.
  intros Hkey. induction k as [| k IH]; [reflexivity |].
  cbn [Nat.iter nat_rect]. unfold extended at 1.
  now rewrite lookup_insert_ne by congruence.
Qed.

Lemma iter_extended_PATH (k : nat) (e : Env) :
  Nat.iter (S k) extended e !! "PATH"
  = Some (Nat.iter (S k) (String.append (cargo_bin e)) (or_else (e !! "PATH") "")).
Proof.
  induction k as [| k IH].
  - cbn [Nat.iter nat_rect]. apply extended_lookup_PATH.
  - change (Nat.iter (S (S k)) extended e) with (extended (Nat.iter (S k) extended e)).
    rewrite extended_lookup_PATH, IH.
    unfold cargo_bin at 1. rewrite iter_extended_other by discriminate.
    fold (cargo_bin e).
    rewrite or_else_Some; [reflexivity |].
    cbn [Nat.iter nat_rect]. apply append_nonempty_l, cargo_bin_nonempty.
Qed.

Section FailingCalls.

Variable host : Host.
Variable ambient : Env.

Hypothesis not_set : truthy (ambient !! "RUST_SRC_PATH") = false.
Hypothesis never_probed :
  forall (i : nat) (env : Env),
    exists m, sysroot_of (spawnSync_result host i "rustup"
                            ["run"; "nightly"; "rustc"; "--print"; "sysroot"] env)
              = Error m.

Lemma failing_calls_invariant (k : nat) :
  contents_of (after_calls host k (initial ambient)) process_env
  = Nat.iter k extended ambient /\
  length (warnings (after_calls host k (initial ambient))) = k /\
  length (probes (after_calls host k (initial ambient))) = (2 * k)%nat.
Proof.
  induction k as [| k (Hcontents & Hwarn & Hprobes)].
  - simpl. now rewrite contents_of_initial.
  - change (after_calls host (S k) (initial ambient))
      with (snd (makeRlsEnv host (after_calls host k (initial ambient)))).
    rewrite makeRlsEnv_run. cbv zeta. rewrite Hcontents.
    rewrite iter_extended_other, not_set by discriminate.
    destruct (never_probed (length (probes (after_calls host k (initial ambient))))
                (Nat.iter k extended ambient)) as [m ->].
    destruct (never_probed (S (length (probes (after_calls host k (initial ambient)))))
                (extended (Nat.iter k extended ambient))) as [m2 ->].
    cbn [snd]. rewrite contents_of_insert.
    unfold warnings, probes in *. cbn [trace].
    rewrite !List.filter_app, !length_app, Hwarn, Hprobes. cbn.
    repeat split; lia.
Qed.

End FailingCalls.

(** X11: when the search-path variable is not set and the probe can never
    be run (no [rustup], say), every call of [makeRlsEnv] probes twice,
    warns once and puts the per-user toolchain directory in front of [PATH]
    once more: after k+1 calls [PATH] starts with k+1 copies of it. *)
Theorem X11_failing_calls_keep_prepending (host : Host) (ambient : Env) (k : nat) :
  truthy (ambient !! "RUST_SRC_PATH") = false ->
  (forall (i : nat) (env : Env),
      exists m, sysroot_of (spawnSync_result host i "rustup"
                              ["run"; "nightly"; "rustc"; "--print"; "sysroot"] env)
                = Error m) ->
  contents_of (after_calls host (S k) (initial ambient)) process_env !! "PATH"
  = Some (Nat.iter (S k) (String.append (cargo_bin ambient))
            (or_else (ambient !! "PATH") "")) /\
  length (warnings (after_calls host (S k) (initial ambient))) = S k /\
  length (probes (after_calls host (S k) (initial ambient))) = (2 * S k)%nat.
Proof.
  intros Hunset Hfail.
  destruct (failing_calls_invariant host ambient Hunset Hfail (S k))
    as (Hcontents & Hwarn & Hprobes).
  rewrite Hcontents, iter_extended_PATH. auto.
Qed.

Lemma X11_failing_calls_keep_prepending_witness :
  contents_of (after_calls no_rustup_host 3 (initial HOME_PATH)) process_env !! "PATH"
  = Some "/home/me/.cargo/bin:/home/me/.cargo/bin:/home/me/.cargo/bin:/usr/bin" /\
  length (warnings (after_calls no_rustup_host 3 (initial HOME_PATH))) = 3%nat.
Proof.
  destruct (X11_failing_calls_keep_prepending no_rustup_host HOME_PATH 2 eq_refl
              (fun _ _ => ex_intro _ "Error running `rustc`: Error: spawnSync rustup ENOENT"
                            eq_refl))
    as (Hpath & Hwarn & _).
  split; [exact Hpath | exact Hwarn].
Defined.

(* ===================================================================== *)
(** * More on the launch                                                  *)
(* ===================================================================== *)

Section LaunchMore.

Variable host : Host.
Variable cfg : RLSConfiguration.

(** One run of [makeRlsProcess] from any world: what is returned and what
    is added to the trace after the environment has been built. *)
Lemma makeRlsProcess_run (w : World) :
  makeRlsProcess host cfg w
  = let env := fst (makeRlsEnv host w) in
    let w1 := snd (makeRlsEnv host w) in
    let started :=
      truthy (rlsPath cfg) || truthy (rlsRoot cfg)
      || runRlsViaRustup_resolves host (contents_of w1 env) in
    (if started
     then Some (session_for host cfg (child_no (length (launches w1))))
     else None,
     mkWorld (heap w1)
       (trace w1 ++ chosen_launch cfg env w1
          :: (if started
              then if logToFile cfg
                   then [CreateWriteStream (logPath host) "w+"] else []
              else [SetStatusBarMessage "RLS could not be started"]))).
Proof.
  cbv zeta.
  unfold makeRlsProcess, chosen_launch, session_for, bind, spawn, runRlsViaRustup,
    attach, emit, ret, root_command, root_args, LOG_FLAGS.
  destruct (makeRlsEnv host w) as [env w1]. cbn [fst snd].
  destruct (truthy (rlsPath cfg)); [| destruct (truthy (rlsRoot cfg))];
    cbn [orb heap trace];
    try destruct (runRlsViaRustup_resolves _ _);
    cbn [orb heap trace];
    destruct (logToFile cfg); unfold bind; cbn [heap trace];
    rewrite <- ?app_assoc; reflexivity.
Qed.

End LaunchMore.

Lemma launch_of_first_run (host : Host) (cfg : RLSConfiguration) (ambient : Env) :
  launches (snd (makeRlsProcess host cfg (initial ambient)))
  = [chosen_launch cfg process_env (snd (makeRlsEnv host (initial ambient)))].
Proof.
  rewrite makeRlsProcess_launches, (proj1 (makeRlsEnv_launches host ambient)).
  now rewrite makeRlsEnv_alias.
Qed.

(** X12: when neither an executable path nor a project root is configured
    (each missing or the empty string), the extension spawns nothing
    itself: the one launch is handed to [runRlsViaRustup] with the
    environment that was built, and a session exists exactly when that
    promise resolves. *)
Theorem X12_fallback_to_rustup (host : Host) (cfg : RLSConfiguration) (ambient : Env) :
  truthy (rlsPath cfg) = false ->
  truthy (rlsRoot cfg) = false ->
  launches (snd (makeRlsProcess host cfg (initial ambient)))
  = [RunRlsViaRustup process_env
       (contents_of (snd (makeRlsEnv host (initial ambient))) process_env)] /\
  fst (makeRlsProcess host cfg (initial ambient))
  = if runRlsViaRustup_resolves host
         (contents_of (snd (makeRlsEnv host (initial ambient))) process_env)
    then Some (session_for host cfg (child_no 0))
    else None.
Proof.
  intros Hpath Hroot. split.
  - rewrite launch_of_first_run. unfold chosen_launch. now rewrite Hpath, Hroot.
  - rewrite makeRlsProcess_run. cbv zeta. cbn [fst].
    rewrite Hpath, Hroot, makeRlsEnv_alias, (proj1 (makeRlsEnv_launches host ambient)).
    reflexivity.
Qed.

Lemma X12_fallback_to_rustup_witness :
  truthy (rlsPath (config (Some "") (Some "") true)) = false /\
  truthy (rlsRoot (config (Some "") (Some "") true)) = false /\
  map launch_argv
    (launches (snd (makeRlsProcess no_rustup_host (config (Some "") (Some "") true)
                      (initial HOME_PATH)))) = [None] /\
  fst (makeRlsProcess no_rustup_host (config (Some "") (Some "") true) (initial HOME_PATH))
  = None.
Proof.
  split; [reflexivity |]. split; [reflexivity |].
  destruct (X12_fallback_to_rustup no_rustup_host (config (Some "") (Some "") true)
              HOME_PATH eq_refl eq_refl) as [Hlaunch Hresult].
  split; [now rewrite Hlaunch | exact Hresult].
Defined.

(** X13: [makeRlsProcess] fails only when the launch was left to
    [runRlsViaRustup]; when it fails, the last thing it does is set the
    status bar message, and it opens no log file even if log capture is
    on. *)
Theorem X13_failure_only_from_rustup (host : Host) (cfg : RLSConfiguration)
  (ambient : Env) :
  fst (makeRlsProcess host cfg (initial ambient)) = None ->
  truthy (rlsPath cfg) = false /\
  truthy (rlsRoot cfg) = false /\
  files_opened (snd (makeRlsProcess host cfg (initial ambient))) = [] /\
  last (trace (snd (makeRlsProcess host cfg (initial ambient))))
  = Some (SetStatusBarMessage "RLS could not be started").
Proof.
  rewrite makeRlsProcess_run. cbv zeta. cbn [fst snd]. unfold chosen_launch.
  destruct (truthy (rlsPath cfg)); [discriminate |].
  destruct (truthy (rlsRoot cfg)); [discriminate |].
  destruct (runRlsViaRustup_resolves _ _); [discriminate |].
  intros _. cbn [orb]. repeat split.
  - unfold files_opened. cbn [trace]. rewrite List.filter_app.
    fold (files_opened (snd (makeRlsEnv host (initial ambient)))).
    rewrite (proj2 (makeRlsEnv_launches host ambient)). reflexivity.
  - cbn [trace].
    change (?l ++ ?a :: [?b])%list with (l ++ [a; b])%list.
    now rewrite last_app.
Qed.

Lemma X13_failure_only_from_rustup_witness :
  fst (makeRlsProcess no_rustup_host (config None None true) (initial HOME_PATH)) = None /\
  files_opened (snd (makeRlsProcess no_rustup_host (config None None true)
                       (initial HOME_PATH))) = [].
Proof.
  split; [reflexivity |].
  destruct (X13_failure_only_from_rustup no_rustup_host (config None None true)
              HOME_PATH eq_refl) as (_ & _ & Hfiles & _).
  exact Hfiles.
Defined.

(** X14: the command, the arguments and the working directory of the
    launch are decided by the configuration alone: neither the ambient
    environment (and so neither [RLS_PATH] nor [RLS_ROOT]) nor what the
    probes answered has any part in them. *)
Theorem X14_launch_command_from_configuration (cfg : RLSConfiguration)
  (host host' : Host) (ambient ambient' : Env) :
  map launch_argv (launches (snd (makeRlsProcess host cfg (initial ambient))))
  = map launch_argv (launches (snd (makeRlsProcess host' cfg (initial ambient')))).
Proof.
  rewrite !launch_of_first_run. unfold chosen_launch.
  destruct (truthy (rlsPath cfg)); [reflexivity |].
  destruct (truthy (rlsRoot cfg)); reflexivity.
Qed.

(** X15: whatever the strategy, the server is started with exactly the
    variables that [process.env] holds once the environment is built, the
    widened [PATH] and the new [RUST_SRC_PATH] included, and launching
    leaves those as they are. *)
Theorem X15_server_gets_built_environment (host : Host) (cfg : RLSConfiguration)
  (ambient : Env) :
  map contents_of_launch (launches (snd (makeRlsProcess host cfg (initial ambient))))
  = [Some (contents_of (snd (makeRlsEnv host (initial ambient))) process_env)] /\
  contents_of (snd (makeRlsProcess host cfg (initial ambient))) process_env
  = contents_of (snd (makeRlsEnv host (initial ambient))) process_env.
Proof.
  split.
  - rewrite launch_of_first_run. unfold chosen_launch.
    destruct (truthy (rlsPath cfg)); [reflexivity |].
    destruct (truthy (rlsRoot cfg)); reflexivity.
  - apply contents_of_heap, makeRlsProcess_heap.
Qed.

(* ===================================================================== *)
(** * More on the observers                                               *)
(* ===================================================================== *)

Section ObserverFacts.

Variable cfg : RLSConfiguration.
Variable lcOutputChannel : bool.

(** The session after one event; the world has no part in it. *)
Lemma deliver_session (s : Session) (e : Event) (w : World) :
  fst (deliver cfg lcOutputChannel s e w)
  = match e with
    | ChildError _ _ => s
    | LogOpen =>
        match logStream s with
        | Some ls =>
            mkSession (childProcess s)
              (Some (mkLogStream (log_path ls) (log_flags ls) (S (data_listeners ls))
                       (ended ls) (written ls)))
              (mirror s)
        | None => s
        end
    | LogError _ =>
        match logStream s with
        | Some ls =>
            mkSession (childProcess s)
              (Some (mkLogStream (log_path ls) (log_flags ls) (data_listeners ls)
                       true (written ls)))
              (mirror s)
        | None => s
        end
    | StderrData chunk =>
        mkSession (childProcess s) (log_write chunk <$> logStream s) (mirror s)
    end.
Proof.
  destruct e as [code message | | err | chunk].
  - unfold deliver, bind, emit, ret. now destruct (bool_decide _).
  - unfold deliver, ret. now destruct (logStream s).
  - unfold deliver, bind, emit, ret. now destruct (logStream s).
  - apply deliver_data.
Qed.

(** The world after one event: the store is as it was and the trace has
    grown at its end. *)
Lemma deliver_world (s : Session) (e : Event) (w : World) :
  snd (deliver cfg lcOutputChannel s e w)
  = mkWorld (heap w)
      (trace w ++
       match e with
       | ChildError code message =>
           if bool_decide (code = Some "ENOENT")
           then [ConsoleError ["Could not spawn RLS process: "; message];
                 ShowWarningMessage "Could not start RLS"]
           else [Throw message]
       | LogOpen => []
       | LogError err =>
           match logStream s with
           | Some ls =>
               [ConsoleError ["Couldn't write to " +:+ log_path ls
                              +:+ " (" +:+ err +:+ ")"]]
           | None => []
           end
       | StderrData chunk =>
           if mirror s && lcOutputChannel
           then OutputAppend chunk
                  :: (if (revealOutputChannelOn cfg <=? 1)%Z then [OutputShow true] else [])
           else []
       end).
Proof.
  destruct w as [h t].
  destruct e as [code message | | err | chunk];
    unfold deliver, bind, emit, ret, RevealOutputChannelOn_Info; cbn [heap trace].
  - destruct (bool_decide _); cbn [snd heap trace]; now rewrite <- ?app_assoc.
  - destruct (logStream s); cbn [snd]; now rewrite app_nil_r.
  - destruct (logStream s); cbn [snd heap trace]; now rewrite ?app_nil_r.
  - destruct (mirror s && lcOutputChannel); cbn [snd heap trace];
      [| now rewrite app_nil_r].
    destruct (_ <=? _)%Z; cbn [snd heap trace]; now rewrite <- ?app_assoc.
Qed.

Lemma deliver_all_app (es es' : list Event) :
  forall (s : Session) (w : World),
    deliver_all cfg lcOutputChannel s (es ++ es') w
    = deliver_all cfg lcOutputChannel
        (fst (deliver_all cfg lcOutputChannel s es w)) es'
        (snd (deliver_all cfg lcOutputChannel s es w)).
Proof.
  induction es as [| e es IH]; intros s w; [reflexivity |].
  change ((e :: es) ++ es')%list with (e :: (es ++ es'))%list.
  now rewrite !deliver_all_cons, IH.
Qed.

(** What a run of stderr chunks does to the log stream. *)
Lemma log_after_data (chunks : list string) :
  forall (s : Session) (w : World),
    logStream (fst (deliver_all cfg lcOutputChannel s (map StderrData chunks) w))
    = fold_left (fun ls c => log_write c ls) chunks <$> logStream s.
Proof.
  induction chunks as [| c chunks IH]; intros s w.
  - cbn. now destruct (logStream s).
  - cbn [map]. rewrite deliver_all_cons, IH, deliver_session. cbn [logStream].
    now destruct (logStream s).
Qed.

Lemma writes_without_listener (chunks : list string) (path flags : string)
  (over : bool) (done : list string) :
  fold_left (fun ls c => log_write c ls) chunks (mkLogStream path flags 0 over done)
  = mkLogStream path flags 0 over done.
Proof.
  induction chunks as [| c chunks IH]; [reflexivity |].
  cbn [fold_left]. unfold log_write at 2. cbn [ended data_listeners written log_path log_flags].
  destruct over; [exact IH |]. cbn [replicate]. now rewrite app_nil_r.
Qed.

Lemma writes_after_end (chunks : list string) (path flags : string)
  (n : nat) (done : list string) :
  fold_left (fun ls c => log_write c ls) chunks (mkLogStream path flags n true done)
  = mkLogStream path flags n true done.
Proof. induction chunks as [| c chunks IH]; [reflexivity | exact IH]. Qed.

Lemma writes_with_one_listener (chunks : list string) :
  forall (path flags : string) (done : list string),
    fold_left (fun ls c => log_write c ls) chunks (mkLogStream path flags 1 false done)
    = mkLogStream path flags 1 false (done ++ chunks).
Proof.
  induction chunks as [| c chunks IH]; intros path flags done.
  - now rewrite app_nil_r.
  - cbn [fold_left]. unfold log_write at 2.
    cbn [ended data_listeners written log_path log_flags replicate].
    now rewrite IH, <- app_assoc.
Qed.

(** Events leave the store alone and only add to the trace. *)
Lemma deliver_all_world (es : list Event) :
  forall (s : Session) (w : World),
    heap (snd (deliver_all cfg lcOutputChannel s es w)) = heap w /\
    exists added,
      trace (snd (deliver_all cfg lcOutputChannel s es w)) = (trace w ++ added)%list /\
      Forall (fun x => is_spawnSync x = false /\ is_launch x = false
                       /\ is_createWriteStream x = false) added.
Proof.
  induction es as [| e es IH]; intros s w.
  - split; [reflexivity |]. exists []. split; [now rewrite app_nil_r | constructor].
  - rewrite deliver_all_cons.
    destruct (IH (fst (deliver cfg lcOutputChannel s e w))
                (snd (deliver cfg lcOutputChannel s e w))) as (Hheap & added & Htrace & Hadded).
    rewrite Hheap, Htrace, deliver_world. cbn [heap trace].
    split; [reflexivity |].
    eexists. split; [now rewrite <- app_assoc |].
    apply Forall_app. split; [| exact Hadded].
    destruct e as [code message | | err | chunk].
    + destruct (bool_decide _); repeat constructor.
    + constructor.
    + destruct (logStream s); repeat constructor.
    + destruct (mirror s && lcOutputChannel); [| constructor].
      destruct (_ <=? _)%Z; repeat constructor.
Qed.

Lemma filter_none {A : Type} (f : A -> bool) (l : list A) :
  Forall (fun x => f x = false) l -> List.filter f l = [].
Proof.
  induction 1 as [| x l Hx _ IH]; [reflexivity |].
  cbn. now rewrite Hx.
Qed.

End ObserverFacts.

Section ObserverMore.

Variable cfg : RLSConfiguration.
Variable lcOutputChannel : bool.

Lemma no_log_stays (es : list Event) :
  forall (s : Session) (w : World),
    logStream s = None ->
    logStream (fst (deliver_all cfg lcOutputChannel s es w)) = None.
Proof.
  induction es as [| e es IH]; intros s w Hnone; [exact Hnone |].
  rewrite deliver_all_cons. apply IH. rewrite deliver_session.
  destruct e; rewrite ?Hnone; cbn [logStream]; now rewrite ?Hnone.
Qed.

Lemma trace_kept (es : list Event) (s : Session) (w : World) (x : Effect) :
  x ∈ trace w -> x ∈ trace (snd (deliver_all cfg lcOutputChannel s es w)).
Proof.
  intros Hx.
  destruct (deliver_all_world cfg lcOutputChannel es s w) as (_ & added & -> & _).
  apply elem_of_app. now left.
Qed.

End ObserverMore.

(** X16: with log capture off, no file is opened at launch and none is
    opened or written later, whatever events arrive. *)
Theorem X16_no_capture_when_disabled (host : Host) (cfg : RLSConfiguration)
  (ambient : Env) (s : Session) (lcOutputChannel : bool) (es : list Event) (w : World) :
  logToFile cfg = false ->
  fst (makeRlsProcess host cfg (initial ambient)) = Some s ->
  files_opened (snd (makeRlsProcess host cfg (initial ambient))) = [] /\
  logStream (fst (deliver_all cfg lcOutputChannel s es w)) = None /\
  log_contents (fst (deliver_all cfg lcOutputChannel s es w)) = "".
Proof.
  intros Hoff Hs.
  rewrite makeRlsProcess_run in *. cbv zeta in *. cbn [fst snd] in *.
  destruct (_ || _); [| discriminate]. injection Hs as <-. rewrite Hoff.
  split.
  - unfold files_opened. cbn [trace]. rewrite List.filter_app.
    fold (files_opened (snd (makeRlsEnv host (initial ambient)))).
    rewrite (proj2 (makeRlsEnv_launches host ambient)).
    unfold chosen_launch.
    destruct (truthy (rlsPath cfg)); [reflexivity |].
    destruct (truthy (rlsRoot cfg)); reflexivity.
  - assert (logStream (fst (deliver_all cfg lcOutputChannel
                              (session_for host cfg
                                 (child_no (length (launches (snd (makeRlsEnv host
                                                                      (initial ambient)))))))
                              es w)) = None) as Hnone.
    { apply no_log_stays. unfold session_for. now rewrite Hoff. }
    split; [exact Hnone |]. unfold log_contents. now rewrite Hnone.
Qed.

Lemma X16_no_capture_when_disabled_witness :
  logToFile (config (Some "/bin/rls") None false) = false /\
  log_contents
    (fst (deliver_all (config (Some "/bin/rls") None false) true
            (mkSession (child_no 0) None false)
            [LogOpen; StderrData "lost"; LogError "EACCES"] (initial HOME_PATH))) = "".
Proof.
  split; [reflexivity |].
  destruct (X16_no_capture_when_disabled retry_host (config (Some "/bin/rls") None false)
              HOME_PATH (mkSession (child_no 0) None false) true
              [LogOpen; StderrData "lost"; LogError "EACCES"] (initial HOME_PATH)
              eq_refl eq_refl) as (_ & _ & Hempty).
  exact Hempty.
Defined.

(** X17: what the child writes to standard error before the log file is
    open is not captured: the file holds the chunks that arrive after the
    open event and only those. *)
Theorem X17_output_before_open_is_lost (host : Host) (cfg : RLSConfiguration)
  (ambient : Env) (s : Session) (lcOutputChannel : bool)
  (early late : list string) (w : World) :
  logToFile cfg = true ->
  fst (makeRlsProcess host cfg (initial ambient)) = Some s ->
  log_contents
    (fst (deliver_all cfg lcOutputChannel s
            (map StderrData early ++ LogOpen :: map StderrData late) w))
  = fold_right String.append "" late.
Proof.
  intros Hlog Hs.
  destruct (makeRlsProcess_files host cfg (initial ambient) s Hs Hlog) as [_ Hstream].
  rewrite deliver_all_app, deliver_all_cons.
  unfold log_contents. rewrite log_after_data, deliver_session.
  rewrite log_after_data, Hstream. cbn [fmap option_fmap option_map].
  rewrite writes_without_listener.
  cbn [logStream fmap option_fmap option_map log_path log_flags data_listeners ended written].
  now rewrite writes_with_one_listener.
Qed.

Lemma X17_output_before_open_is_lost_witness :
  log_contents
    (fst (deliver_all (config (Some "/bin/rls") None true) false
            (mkSession (child_no 0)
               (Some (mkLogStream "/home/me/project/rls1500000000000.log" "w+" 0 false []))
               false)
            (map StderrData ["starting "] ++ LogOpen :: map StderrData ["ready"])
            (initial HOME_PATH)))
  = "ready".
Proof.
  apply (X17_output_before_open_is_lost retry_host (config (Some "/bin/rls") None true)
           HOME_PATH
           (mkSession (child_no 0)
              (Some (mkLogStream "/home/me/project/rls1500000000000.log" "w+" 0 false []))
              false)
           false ["starting "] ["ready"] (initial HOME_PATH) eq_refl eq_refl).
Defined.

(** X18: when the log stream reports an error, the failure is written to
    the console with the path and the error, the stream is ended, and what
    the child writes afterwards is not added: the file keeps what arrived
    between the open event and the error. *)
Theorem X18_log_error_ends_capture (host : Host) (cfg : RLSConfiguration)
  (ambient : Env) (s : Session) (lcOutputChannel : bool)
  (before after : list string) (err : string) (w : World) :
  logToFile cfg = true ->
  fst (makeRlsProcess host cfg (initial ambient)) = Some s ->
  log_contents
    (fst (deliver_all cfg lcOutputChannel s
            (LogOpen :: map StderrData before ++ LogError err :: map StderrData after) w))
  = fold_right String.append "" before /\
  ConsoleError ["Couldn't write to " +:+ logPath host +:+ " (" +:+ err +:+ ")"]
  ∈ trace (snd (deliver_all cfg lcOutputChannel s
                  (LogOpen :: map StderrData before ++ LogError err :: map StderrData after)
                  w)).
Proof.
  intros Hlog Hs.
  destruct (makeRlsProcess_files host cfg (initial ambient) s Hs Hlog) as [_ Hstream].
  rewrite deliver_all_cons, deliver_all_app, deliver_all_cons.
  set (s1 := fst (deliver cfg lcOutputChannel s LogOpen w)).
  set (w1 := snd (deliver cfg lcOutputChannel s LogOpen w)).
  set (s2 := fst (deliver_all cfg lcOutputChannel s1 (map StderrData before) w1)).
  set (w2 := snd (deliver_all cfg lcOutputChannel s1 (map StderrData before) w1)).
  assert (logStream s2 = Some (mkLogStream (logPath host) "w+" 1 false before)) as Hs2.
  { subst s2 s1. rewrite log_after_data, deliver_session, Hstream.
    cbn [logStream fmap option_fmap option_map log_path log_flags data_listeners
           ended written].
    now rewrite writes_with_one_listener. }
  split.
  - unfold log_contents. rewrite log_after_data, deliver_session, Hs2.
    cbn [logStream fmap option_fmap option_map log_path log_flags data_listeners
           ended written].
    now rewrite writes_after_end.
  - apply trace_kept. rewrite deliver_world, Hs2. cbn [trace log_path].
    apply elem_of_app. right. apply list_elem_of_singleton. reflexivity.
Qed.

Lemma X18_log_error_ends_capture_witness :
  log_contents
    (fst (deliver_all (config (Some "/bin/rls") None true) false
            (mkSession (child_no 0)
               (Some (mkLogStream "/home/me/project/rls1500000000000.log" "w+" 0 false []))
               false)
            (LogOpen :: map StderrData ["kept"] ++ LogError "ENOSPC" :: map StderrData ["lost"])
            (initial HOME_PATH)))
  = "kept".
Proof.
  destruct (X18_log_error_ends_capture retry_host (config (Some "/bin/rls") None true)
              HOME_PATH
              (mkSession (child_no 0)
                 (Some (mkLogStream "/home/me/project/rls1500000000000.log" "w+" 0 false []))
                 false)
              false ["kept"] ["lost"] "ENOSPC" (initial HOME_PATH) eq_refl eq_refl)
    as [Hkept _].
  exact Hkept.
Defined.


(** X20: handling events never changes [process.env], never runs a probe,
    never launches a process and never opens a file, whatever the events
    and the session. *)
Theorem X20_events_touch_nothing_else (cfg : RLSConfiguration) (lcOutputChannel : bool)
  (s : Session) (es : list Event) (w : World) :
  heap (snd (deliver_all cfg lcOutputChannel s es w)) = heap w /\
  probes (snd (deliver_all cfg lcOutputChannel s es w)) = probes w /\
  launches (snd (deliver_all cfg lcOutputChannel s es w)) = launches w /\
  files_opened (snd (deliver_all cfg lcOutputChannel s es w)) = files_opened w.
Proof.
  destruct (deliver_all_world cfg lcOutputChannel es s w)
    as (Hheap & added & Htrace & Hadded).
  split; [exact Hheap |].
  unfold probes, launches, files_opened. rewrite Htrace, !List.filter_app.
  rewrite (filter_none is_spawnSync added), (filter_none is_launch added),
    (filter_none is_createWriteStream added), !app_nil_r;
    [auto | | |]; eapply Forall_impl; try exact Hadded; cbn; tauto.
Qed.

(** X21: as long as every error of the child is "executable not found",
    the error observer raises nothing: each such error shows one warning,
    and nothing else the observers handle shows any. *)
Theorem X21_not_found_only_warns (cfg : RLSConfiguration) (lcOutputChannel : bool)
  (es : list Event) (s : Session) (w : World) :
  forallb (fun e => negb (is_other_child_error e)) es = true ->
  thrown (snd (deliver_all cfg lcOutputChannel s es w)) = thrown w /\
  length (warnings (snd (deliver_all cfg lcOutputChannel s es w)))
  = (length (warnings w) + length (List.filter is_not_found es))%nat.
Proof.
  revert s w. induction es as [| e es IH]; intros s w Hall.
  - cbn. split; [reflexivity | lia].
  - cbn [forallb] in Hall. apply andb_prop in Hall as [He Hes].
    rewrite deliver_all_cons.
    destruct (IH (fst (deliver cfg lcOutputChannel s e w))
                (snd (deliver cfg lcOutputChannel s e w)) Hes) as [Hthrown Hwarn].
    rewrite Hthrown, Hwarn, deliver_world.
    unfold thrown, warnings. cbn [trace]. rewrite !List.filter_app, !length_app.
    destruct e as [code message | | err | chunk];
      cbn [is_other_child_error is_not_found List.filter] in *.
    + destruct (bool_decide (code = Some "ENOENT")); [| discriminate].
      cbn. rewrite app_nil_r. split; [reflexivity | lia].
    + cbn. rewrite app_nil_r. split; [reflexivity | lia].
    + destruct (logStream s); cbn; rewrite app_nil_r; split; (reflexivity || lia).
    + destruct (mirror s && lcOutputChannel); [destruct (_ <=? _)%Z |];
        cbn; rewrite app_nil_r; split; (reflexivity || lia).
Qed.

Lemma X21_not_found_only_warns_witness :
  thrown (snd (deliver_all (config None None false) true
                 (mkSession (child_no 0) None false)
                 [ChildError (Some "ENOENT") "spawn rls ENOENT"; StderrData "x";
                  ChildError (Some "ENOENT") "spawn rls ENOENT"]
                 (initial HOME_PATH))) = [] /\
  length (warnings (snd (deliver_all (config None None false) true
                           (mkSession (child_no 0) None false)
                           [ChildError (Some "ENOENT") "spawn rls ENOENT"; StderrData "x";
                            ChildError (Some "ENOENT") "spawn rls ENOENT"]
                           (initial HOME_PATH)))) = 2%nat.
Proof.
  apply (X21_not_found_only_warns (config None None false) true
           [ChildError (Some "ENOENT") "spawn rls ENOENT"; StderrData "x";
            ChildError (Some "ENOENT") "spawn rls ENOENT"]
           (mkSession (child_no 0) None false) (initial HOME_PATH)).
  reflexivity.
Defined.
